(** * mov2seqimg: frame sampling, GNSS merging and EXIF geotag encoding

    A shallow embedding of [mov2seqimg/mov2seqimg.py].

    The program computes with Python [float]s and NumPy [float64] arrays.
    Every function below is written once, over the interface [PyFloat] of the
    operations the source applies to such numbers, and the interface has two
    implementations:

    - [B64]: IEEE 754 binary64 with round-to-nearest-even, built on the
      executable [SpecFloat] operations.  This is the arithmetic Python runs,
      bit for bit, and the concrete evaluations below use it.
    - [Exact]: rational arithmetic ([Q]), the real-number reading of the same
      expressions.  The counting and ordering properties of the sampler are
      proved in it.

    What the source delegates to other packages is kept outside the embedding:
    ffmpeg runs and piexif writes are recorded as events, pandas' timedelta
    conversion is an operation of the interface, and scipy's [interp1d] and
    piexif's [load] and [dump] are parameters of the methods that call them.
    Failures of the file system and of the ffmpeg process are not modelled. *)

From Stdlib Require Import ZArith QArith Qround Qabs Lia Lqa List String Bool.
From Stdlib Require Import Sorted.
From Stdlib.Strings Require Import Byte.
From Stdlib Require Import Ascii DecimalString DecimalN DecimalFacts.
From Stdlib Require Import SpecFloat.
From stdpp Require Import base option strings gmap.

Import ListNotations.
Open Scope Z_scope.

(** ** Python run-time values shared by all functions *)

Module Py.

(** The exceptions the modelled code can raise.  [InterpolationError] is the
    name the design document gives to a failing interpolant construction. *)
Inductive Error : Type :=
| ValueError (msg : string)
| ZeroDivisionError
| OverflowError
| IndexError
| KeyError (key : string)
| AttributeError (name : string)
| InterpolationError.

Inductive result (A : Type) : Type :=
| Ok (a : A)
| Raise (e : Error).
Arguments Ok {A} a.
Arguments Raise {A} e.

Definition rbind {A B : Type} (r : result A) (k : A -> result B) : result B :=
  match r with
  | Ok a => k a
  | Raise e => Raise e
  end.

(** [pandas.Timedelta]: a count of nanoseconds, or not-a-time. *)
Inductive Timedelta : Type :=
| NaT
| Td (ns : Z).

(** The classes of a floating-point datum that Python's [int()] tells apart. *)
Inductive FClass : Type := Finite | Infinite | NotANumber.

End Py.
Export Py.

Declare Scope py_scope.
Delimit Scope py_scope with py.
Notation "'do' x <- r ; k" := (rbind r (fun x => k))
  (at level 10, x name, r at level 100, k at level 200) : py_scope.
Open Scope py_scope.

(** ** The numeric interface *)

(** The operations of Python [float] (and of [numpy.float64]) that the source
    uses.  An [int] operand of a mixed expression is converted first, by
    [f_of_int].  [f_div] is the IEEE quotient that NumPy computes elementwise;
    Python's own [/] first tests the divisor, see [py_truediv].  [f_trunc] and
    [f_ceil] are read only on [Finite] data. *)
Class PyFloat (F : Type) : Type := {
  f_of_int : Z -> F;
  f_add : F -> F -> F;
  f_sub : F -> F -> F;
  f_mul : F -> F -> F;
  f_div : F -> F -> F;
  f_abs : F -> F;
  f_ltb : F -> F -> bool;
  f_leb : F -> F -> bool;
  f_is_zero : F -> bool;
  f_class : F -> FClass;
  f_trunc : F -> Z;
  f_ceil : F -> Z;
  (** [pandas.to_timedelta(x, unit='s')] and [Timedelta.total_seconds()] *)
  to_timedelta : F -> Timedelta;
  total_seconds : Timedelta -> F
}.

Section PythonOps.
Context {F : Type} `{PyFloat F}.

(** [x / y] on Python numbers: a zero divisor raises. *)
Definition py_truediv (x y : F) : result F :=
  if f_is_zero y then Raise ZeroDivisionError else Ok (f_div x y).

(** [int(x)] on a float: truncation toward zero; NaN and the infinities
    raise. *)
Definition py_int (x : F) : result Z :=
  match f_class x with
  | Finite => Ok (f_trunc x)
  | Infinite => Raise OverflowError
  | NotANumber => Raise (ValueError "cannot convert float NaN to integer")
  end.

(** [x > y], [x >= y] *)
Definition py_gt (x y : F) : bool := f_ltb y x.
Definition py_ge (x y : F) : bool := f_leb y x.

End PythonOps.

(** ** Binary64 *)

Module B64.

Definition prec : Z := 53.
Definition emax : Z := 1024.

Definition float : Type := spec_float.

Definition of_int (n : Z) : float := binary_normalize prec emax n 0 false.

Definition is_zero (x : float) : bool :=
  match x with S754_zero _ => true | _ => false end.

Definition classify (x : float) : FClass :=
  match x with
  | S754_nan => NotANumber
  | S754_infinity _ => Infinite
  | _ => Finite
  end.

(** Integer part, toward zero.  [Z.shiftl] by a negative amount is the
    flooring right shift, which on a positive mantissa is truncation. *)
Definition trunc (x : float) : Z :=
  match x with
  | S754_finite s m e => cond_Zopp s (Z.shiftl (Zpos m) e)
  | _ => 0
  end.

Definition ceil (x : float) : Z :=
  match x with
  | S754_finite false m e => - Z.shiftl (Zneg m) e
  | S754_finite true m e => - Z.shiftl (Zpos m) e
  | _ => 0
  end.

(** Nearest integer to [n / d], ties to even, for [0 < d]. *)
Definition div_nearest_even (n d : Z) : Z :=
  let q := n / d in
  let r := n mod d in
  match 2 * r ?= d with
  | Lt => q
  | Gt => q + 1
  | Eq => if Z.even q then q else q + 1
  end.

Definition seconds_to_ns (x : float) : Timedelta :=
  match x with
  | S754_zero _ => Td 0
  | S754_finite s m e =>
      let n := cond_Zopp s (Zpos m) * 1000000000 in
      Td (match e with
          | Zneg p => div_nearest_even n (Z.pow_pos 2 p)
          | _ => n * 2 ^ e
          end)
  | _ => NaT
  end.

Definition ns_to_seconds (t : Timedelta) : float :=
  match t with
  | NaT => S754_nan
  | Td ns => SFdiv prec emax (of_int ns) (of_int 1000000000)
  end.

#[global] Instance b64_float : PyFloat float := {|
  f_of_int := of_int;
  f_add := SFadd prec emax;
  f_sub := SFsub prec emax;
  f_mul := SFmul prec emax;
  f_div := SFdiv prec emax;
  f_abs := SFabs;
  f_ltb := SFltb;
  f_leb := SFleb;
  f_is_zero := is_zero;
  f_class := classify;
  f_trunc := trunc;
  f_ceil := ceil;
  to_timedelta := seconds_to_ns;
  total_seconds := ns_to_seconds
|}.

(** The double nearest to the decimal [n / 10^k]: what Python reads from
    such a literal (the quotient of two exactly represented integers is
    correctly rounded). *)
Definition decimal (n : Z) (k : Z) : float :=
  SFdiv prec emax (of_int n) (of_int (10 ^ k)).

End B64.

(** ** Exact rationals *)

Module Exact.

Definition trunc (q : Q) : Z := Z.quot (Qnum q) (Zpos (Qden q)).

Definition ltb (x y : Q) : bool := negb (Qle_bool y x).

Definition is_zero (q : Q) : bool := Qnum q =? 0.

Definition seconds_to_ns (q : Q) : Timedelta :=
  Td (Qfloor (q * inject_Z 1000000000 + (1 # 2))).

Definition ns_to_seconds (t : Timedelta) : Q :=
  match t with
  | NaT => 0%Q
  | Td ns => (ns # 1000000000)%Q
  end.

#[global] Instance exact_float : PyFloat Q := {|
  f_of_int := inject_Z;
  f_add := Qplus;
  f_sub := Qminus;
  f_mul := Qmult;
  f_div := Qdiv;
  f_abs := Qabs;
  f_ltb := ltb;
  f_leb := Qle_bool;
  f_is_zero := is_zero;
  f_class := fun _ => Finite;
  f_trunc := trunc;
  f_ceil := Qceiling;
  to_timedelta := seconds_to_ns;
  total_seconds := ns_to_seconds
|}.

End Exact.

(** ** Module-level functions of the source *)

Section Encoders.
Context {F : Type} `{PyFloat F}.

(** [latlon_to_rational]: degrees, minutes and seconds of [abs(latlon)] as
    three EXIF rationals. *)
Definition latlon_to_rational (latlon : F) : result (list (Z * Z)) :=
  let latlon := f_abs latlon in
  do deg <- py_int latlon;
  do min <- py_int (f_mul (f_sub latlon (f_of_int deg)) (f_of_int 60));
  do sec <- py_int
    (f_mul
       (f_mul
          (f_sub (f_mul (f_sub latlon (f_of_int deg)) (f_of_int 60))
                 (f_of_int min))
          (f_of_int 60))
       (f_of_int 100000));
  Ok [(deg, 1); (min, 1); (sec, 100000)].

(** [ele_to_rational] *)
Definition ele_to_rational (ele : F) : result (Z * Z) :=
  do ele <- py_int (f_mul ele (f_of_int 1000));
  Ok (ele, 1000).

End Encoders.


(** ** NumPy array functions *)

Section NumPy.
Context {F : Type} `{PyFloat F}.

(** Element [i] of [numpy.arange(start, stop, step)] for floating-point
    arguments: the first two elements are [start] and [next = start + step];
    the others are filled as [start + i * (next - start)]. *)
Definition arange_item (start next : F) (i : nat) : F :=
  match i with
  | O => start
  | S O => next
  | _ => f_add start (f_mul (f_of_int (Z.of_nat i)) (f_sub next start))
  end.

(** [numpy.arange(start, stop, step)]: the length is
    [ceil((stop - start) / step)], an empty array when that is not
    positive. *)
Definition np_arange (start stop step : F) : result (list F) :=
  do len <- py_truediv (f_sub stop start) step;
  match f_class len with
  | NotANumber => Raise (ValueError "arange: cannot compute length")
  | Infinite => Raise OverflowError
  | Finite =>
      Ok (map (arange_item start (f_add start step))
              (seq 0 (Z.to_nat (f_ceil len))))
  end.

Definition is_nan (x : F) : bool :=
  match f_class x with NotANumber => true | _ => false end.

(** [numpy.clip(x, lo, hi)] on one element: [min(max(x, lo), hi)], a NaN
    passing through. *)
Definition np_clip (lo hi : F) (x : F) : F :=
  let y := if is_nan x then x else if f_ltb lo x then x else lo in
  if is_nan y then y else if f_ltb y hi then y else hi.

(** [numpy.int64(x)] on one element: the C conversion, which truncates; a
    datum without an [int64] value converts to the least [int64]. *)
Definition np_int64 (x : F) : Z :=
  match f_class x with
  | Finite =>
      let t := f_trunc x in
      if (- 2 ^ 63 <=? t) && (t <? 2 ^ 63) then t else - 2 ^ 63
  | _ => - 2 ^ 63
  end.

End NumPy.

(** ** The class [Mov2SeqImg] *)

(** The value of an EXIF field as piexif takes it. *)
Inductive ExifValue : Type :=
| ExifRational (r : Z * Z)
| ExifRationals (rs : list (Z * Z))
| ExifAscii (s : string).

(** [piexif.GPSIFD] tag numbers. *)
Module GPSIFD.
Definition GPSLatitudeRef : Z := 1.
Definition GPSLatitude : Z := 2.
Definition GPSLongitudeRef : Z := 3.
Definition GPSLongitude : Z := 4.
Definition GPSAltitude : Z := 6.
End GPSIFD.

(** The dictionary [piexif.load] returns: IFD name to tag to value. *)
Abbreviation ExifDict := (gmap string (gmap Z ExifValue)).

(** The two piexif functions whose result the loop body depends on:
    [piexif.load] of the image just extracted for a frame, and [piexif.dump],
    which packs a dictionary into the bytes of an EXIF block or raises. *)
Record Piexif : Type := {
  piexif_load : Z -> ExifDict;
  piexif_dump : ExifDict -> result (list byte)
}.

Section Mov2SeqImg.
Context {F : Type} `{PyFloat F}.

(** A row of [self.gps_data] (the [abs_time] column is never read). *)
Record GpsRow : Type := {
  rel_time : Timedelta;
  gps_lat : F;
  gps_lon : F;
  gps_ele : F
}.

(** A row of [self.frame_list]. *)
Record FrameRow : Type := {
  frame_num : Z;
  time_stamp : Timedelta
}.

(** A row of [self.merged_frame_list]. *)
Record MergedRow : Type := {
  m_frame_num : Z;
  m_time_stamp : Timedelta;
  m_lat : F;
  m_lon : F;
  m_ele : F
}.

(** The attributes of a [Mov2SeqImg] object.  Those of the first line are
    set by [__init__] from the probed video and the parsed track; the others
    do not exist until a method assigns them. *)
Record Object : Type := {
  total_frames : Z;
  total_duration : F;
  fps : F;
  gps_data : list GpsRow;
  start_time : option F;
  end_time : option F;
  time_interval : option F;
  clip_fps : option F;
  frame_list : option (list FrameRow);
  lat_interp : option (F -> F);
  lon_interp : option (F -> F);
  ele_interp : option (F -> F);
  merged_frame_list : option (list MergedRow)
}.

(** The object [__init__] leaves behind ([_load_gpx] reads the last fix, so a
    constructed object has at least one). *)
Definition init (frames : Z) (duration rate : F) (gps : list GpsRow) : Object :=
  {| total_frames := frames; total_duration := duration; fps := rate;
     gps_data := gps;
     start_time := None; end_time := None; time_interval := None;
     clip_fps := None; frame_list := None;
     lat_interp := None; lon_interp := None; ele_interp := None;
     merged_frame_list := None |}.

Inductive PyVal : Type :=
| VInt (n : Z)
| VFloat (x : F).

(** What a run does to the outside: lines printed, frames extracted by
    ffmpeg at a seek time, and EXIF blocks written back by piexif.  An image
    file is named after its frame number, which stands for its path. *)
Inductive Event : Type :=
| Print (text : string) (args : list PyVal)
| FfmpegRun (ss : F) (frame : Z)
| PiexifInsert (exif_bytes : list byte) (frame : Z).

Record World : Type := {
  self : Object;
  events : list Event
}.

(** A method body: it may update [self], do outside effects and raise.  An
    exception keeps the effects done before it. *)
Definition M (A : Type) : Type := World -> result A * World.

Definition ret {A : Type} (a : A) : M A := fun w => (Ok a, w).

Definition bind {A B : Type} (m : M A) (k : A -> M B) : M B :=
  fun w =>
    match m w with
    | (Ok a, w') => k a w'
    | (Raise e, w') => (Raise e, w')
    end.

Definition raise {A : Type} (e : Error) : M A := fun w => (Raise e, w).

Definition lift {A : Type} (r : result A) : M A := fun w => (r, w).

Definition emit (ev : Event) : M unit :=
  fun w => (Ok tt, {| self := self w; events := events w ++ [ev] |}).

Definition print (text : string) (args : list PyVal) : M unit :=
  emit (Print text args).

Definition get {A : Type} (field : Object -> A) : M A :=
  fun w => (Ok (field (self w)), w).

(** Reading an attribute that a method assigns. *)
Definition attr {A : Type} (name : string) (field : Object -> option A) : M A :=
  fun w =>
    match field (self w) with
    | Some a => (Ok a, w)
    | None => (Raise (AttributeError name), w)
    end.

Definition update (f : Object -> Object) : M unit :=
  fun w => (Ok tt, {| self := f (self w); events := events w |}).

End Mov2SeqImg.

Arguments GpsRow F : clear implicits.
Arguments MergedRow F : clear implicits.
Arguments Object F : clear implicits.
Arguments PyVal F : clear implicits.
Arguments Event F : clear implicits.
Arguments World F : clear implicits.
Arguments M F A : clear implicits.

Notation "'run' x <- m ; k" := (bind m (fun x => k))
  (at level 10, x name, m at level 100, k at level 200) : py_scope.
Notation "'exec' m ; k" := (bind m (fun _ => k))
  (at level 10, m at level 100, k at level 200) : py_scope.

Section Methods.
Context {F : Type} `{PyFloat F}.

(** [scipy.interpolate.interp1d(x, y, kind='quadratic',
    fill_value='extrapolate')]: the construction may raise, and the object
    built is called as a function. *)
Variable interp1d : list F -> list F -> result (F -> F).

Variable piexif : Piexif.

Definition set_start_time (v : F) (o : Object F) : Object F :=
  {| total_frames := total_frames o; total_duration := total_duration o;
     fps := fps o; gps_data := gps_data o;
     start_time := Some v; end_time := end_time o;
     time_interval := time_interval o; clip_fps := clip_fps o;
     frame_list := frame_list o;
     lat_interp := lat_interp o; lon_interp := lon_interp o;
     ele_interp := ele_interp o;
     merged_frame_list := merged_frame_list o |}.

Definition set_end_time (v : F) (o : Object F) : Object F :=
  {| total_frames := total_frames o; total_duration := total_duration o;
     fps := fps o; gps_data := gps_data o;
     start_time := start_time o; end_time := Some v;
     time_interval := time_interval o; clip_fps := clip_fps o;
     frame_list := frame_list o;
     lat_interp := lat_interp o; lon_interp := lon_interp o;
     ele_interp := ele_interp o;
     merged_frame_list := merged_frame_list o |}.

Definition set_time_interval (v : F) (o : Object F) : Object F :=
  {| total_frames := total_frames o; total_duration := total_duration o;
     fps := fps o; gps_data := gps_data o;
     start_time := start_time o; end_time := end_time o;
     time_interval := Some v; clip_fps := clip_fps o;
     frame_list := frame_list o;
     lat_interp := lat_interp o; lon_interp := lon_interp o;
     ele_interp := ele_interp o;
     merged_frame_list := merged_frame_list o |}.

Definition set_clip_fps (v : F) (o : Object F) : Object F :=
  {| total_frames := total_frames o; total_duration := total_duration o;
     fps := fps o; gps_data := gps_data o;
     start_time := start_time o; end_time := end_time o;
     time_interval := time_interval o; clip_fps := Some v;
     frame_list := frame_list o;
     lat_interp := lat_interp o; lon_interp := lon_interp o;
     ele_interp := ele_interp o;
     merged_frame_list := merged_frame_list o |}.

Definition set_frame_list (v : list FrameRow) (o : Object F) : Object F :=
  {| total_frames := total_frames o; total_duration := total_duration o;
     fps := fps o; gps_data := gps_data o;
     start_time := start_time o; end_time := end_time o;
     time_interval := time_interval o; clip_fps := clip_fps o;
     frame_list := Some v;
     lat_interp := lat_interp o; lon_interp := lon_interp o;
     ele_interp := ele_interp o;
     merged_frame_list := merged_frame_list o |}.

Definition set_lat_interp (v : F -> F) (o : Object F) : Object F :=
  {| total_frames := total_frames o; total_duration := total_duration o;
     fps := fps o; gps_data := gps_data o;
     start_time := start_time o; end_time := end_time o;
     time_interval := time_interval o; clip_fps := clip_fps o;
     frame_list := frame_list o;
     lat_interp := Some v; lon_interp := lon_interp o;
     ele_interp := ele_interp o;
     merged_frame_list := merged_frame_list o |}.

Definition set_lon_interp (v : F -> F) (o : Object F) : Object F :=
  {| total_frames := total_frames o; total_duration := total_duration o;
     fps := fps o; gps_data := gps_data o;
     start_time := start_time o; end_time := end_time o;
     time_interval := time_interval o; clip_fps := clip_fps o;
     frame_list := frame_list o;
     lat_interp := lat_interp o; lon_interp := Some v;
     ele_interp := ele_interp o;
     merged_frame_list := merged_frame_list o |}.

Definition set_ele_interp (v : F -> F) (o : Object F) : Object F :=
  {| total_frames := total_frames o; total_duration := total_duration o;
     fps := fps o; gps_data := gps_data o;
     start_time := start_time o; end_time := end_time o;
     time_interval := time_interval o; clip_fps := clip_fps o;
     frame_list := frame_list o;
     lat_interp := lat_interp o; lon_interp := lon_interp o;
     ele_interp := Some v;
     merged_frame_list := merged_frame_list o |}.

Definition set_merged_frame_list (v : list (MergedRow F)) (o : Object F)
  : Object F :=
  {| total_frames := total_frames o; total_duration := total_duration o;
     fps := fps o; gps_data := gps_data o;
     start_time := start_time o; end_time := end_time o;
     time_interval := time_interval o; clip_fps := clip_fps o;
     frame_list := frame_list o;
     lat_interp := lat_interp o; lon_interp := lon_interp o;
     ele_interp := ele_interp o;
     merged_frame_list := Some v |}.

(** The rate part of [_set_params]: the pair [(time_interval, clip_fps)]
    that the method stores.  [time_interval] is looked at first; the [fps]
    argument is read only when [time_interval] is [None]. *)
Definition resolve_rate (rate : F) (time_interval clip_fps : option F)
  : result (F * F) :=
  match time_interval with
  | None =>
      match clip_fps with
      | Some clip_fps =>
          let clip_fps := if py_gt clip_fps rate then rate else clip_fps in
          do time_interval <- py_truediv (f_of_int 1) clip_fps;
          Ok (time_interval, clip_fps)
      | None => Raise (ValueError "Either time_interval or fps must be set.")
      end
  | Some time_interval =>
      do clip_fps <- py_truediv (f_of_int 1) time_interval;
      if py_gt clip_fps rate then
        let clip_fps := rate in
        do time_interval <- py_truediv (f_of_int 1) clip_fps;
        Ok (time_interval, clip_fps)
      else Ok (time_interval, clip_fps)
  end.

(** [Mov2SeqImg._set_params] *)
Definition _set_params (start_time_arg end_time_arg time_interval_arg
                          clip_fps_arg : option F) : M F unit :=
  exec match start_time_arg with
       | None => update (set_start_time (f_of_int 0))
       | Some t => update (set_start_time t)
       end;
  exec match end_time_arg with
       | None => run d <- get total_duration; update (set_end_time d)
       | Some t => update (set_end_time t)
       end;
  run t1 <- attr "end_time" end_time;
  run t0 <- attr "start_time" start_time;
  if f_leb t1 t0 then
    raise (ValueError "end_time must be greater than start_time.")
  else
    run rate <- get fps;
    run r <- lift (resolve_rate rate time_interval_arg clip_fps_arg);
    exec update (set_time_interval (fst r));
    exec update (set_clip_fps (snd r));
    exec print "Set parameters:" [];
    exec print " start time: " [VFloat t0];
    exec print " end time: " [VFloat t1];
    exec print " time interval: " [VFloat (fst r)];
    print " clip fps: " [VFloat (snd r)].

(** [DataFrame.iloc[0]] and [DataFrame.iloc[-1]] on a column. *)
Definition iloc_first {A : Type} (l : list A) : result A :=
  match l with
  | [] => Raise IndexError
  | a :: _ => Ok a
  end.

Definition iloc_last {A : Type} (l : list A) : result A :=
  match List.rev l with
  | [] => Raise IndexError
  | a :: _ => Ok a
  end.

(** The frame numbers of [_get_frame_list]: positions, clipped, converted. *)
Definition frame_numbers (o_fps clip t0 t1 : F) (frames : Z)
  : result (list Z) :=
  let start_frame := f_mul t0 o_fps in
  let end_frame := f_mul t1 o_fps in
  do step <- py_truediv o_fps clip;
  do frame_num_list <- np_arange start_frame end_frame step;
  let frame_num_list :=
    map (np_clip (f_of_int 0) (f_of_int (frames - 1))) frame_num_list in
  Ok (map np_int64 frame_num_list).

Definition frame_row (o_fps : F) (n : Z) : FrameRow :=
  {| frame_num := n;
     time_stamp := to_timedelta (f_div (f_of_int n) o_fps) |}.

(** [Mov2SeqImg._get_frame_list] *)
Definition _get_frame_list : M F unit :=
  run t0 <- attr "start_time" start_time;
  run t1 <- attr "end_time" end_time;
  run rate <- get fps;
  run clip <- attr "clip_fps" clip_fps;
  run frames <- get total_frames;
  run frame_num_list <- lift (frame_numbers rate clip t0 t1 frames);
  exec update (set_frame_list (map (frame_row rate) frame_num_list));
  exec print "Frame list:" [];
  run first <- lift (iloc_first frame_num_list);
  exec print " start frame: " [VInt first];
  run last <- lift (iloc_last frame_num_list);
  exec print " end frame: " [VInt last];
  print " number of frames: " [VInt (Z.of_nat (length frame_num_list))].

Definition sync_warning : list (Event F) :=
  [ Print "WARNING: The difference between the duration of the mov file and the gpx file is more than 1 second." [];
    Print "         The last frame of the mov file may not be synchronized with the last track point of the gpx file." [] ].

Definition merged_row (lat lon ele : F -> F) (r : FrameRow) : MergedRow F :=
  let t := total_seconds (time_stamp r) in
  {| m_frame_num := frame_num r;
     m_time_stamp := time_stamp r;
     m_lat := lat t;
     m_lon := lon t;
     m_ele := ele t |}.

(** [Mov2SeqImg._merge_gnss2frame_list] *)
Definition _merge_gnss2frame_list : M F unit :=
  run gps <- get gps_data;
  run duration <- get total_duration;
  run last <- lift (iloc_last gps);
  exec (if py_gt (f_abs (f_sub duration (total_seconds (rel_time last))))
                 (f_of_int 1)
        then exec print "WARNING: The difference between the duration of the mov file and the gpx file is more than 1 second." [];
             print "         The last frame of the mov file may not be synchronized with the last track point of the gpx file." []
        else ret tt);
  let seconds := map (fun p => total_seconds (rel_time p)) gps in
  run lat <- lift (interp1d seconds (map gps_lat gps));
  exec update (set_lat_interp lat);
  run lon <- lift (interp1d seconds (map gps_lon gps));
  exec update (set_lon_interp lon);
  run ele <- lift (interp1d seconds (map gps_ele gps));
  exec update (set_ele_interp ele);
  run frames <- attr "frame_list" frame_list;
  update (set_merged_frame_list (map (merged_row lat lon ele) frames)).

(** [exif["GPS"][tag] = value] *)
Definition set_gps (tag : Z) (v : ExifValue) (exif : ExifDict)
  : result ExifDict :=
  match exif !! "GPS" with
  | Some ifd => Ok (<["GPS" := <[tag := v]> ifd]> exif)
  | None => Raise (KeyError "GPS")
  end.

(** The geotag fields that the loop body of [_extract_images] assigns, in
    its order. *)
Definition tag_exif (lat lon ele : F) (exif : ExifDict) : result ExifDict :=
  do v <- latlon_to_rational lat;
  do exif <- set_gps GPSIFD.GPSLatitude (ExifRationals v) exif;
  do exif <- set_gps GPSIFD.GPSLatitudeRef
               (ExifAscii (if py_ge lat (f_of_int 0) then "N" else "S")) exif;
  do v <- latlon_to_rational lon;
  do exif <- set_gps GPSIFD.GPSLongitude (ExifRationals v) exif;
  do exif <- set_gps GPSIFD.GPSLongitudeRef
               (ExifAscii (if py_ge lon (f_of_int 0) then "E" else "W")) exif;
  do v <- ele_to_rational ele;
  set_gps GPSIFD.GPSAltitude (ExifRational v) exif.

(** One iteration of the loop of [_extract_images]. *)
Definition extract_image (row : MergedRow F) : M F unit :=
  let frame_num := m_frame_num row in
  run rate <- get fps;
  run ss <- lift (py_truediv (f_of_int frame_num) rate);
  exec emit (FfmpegRun ss frame_num);
  run exif <- lift (tag_exif (m_lat row) (m_lon row) (m_ele row)
                             (piexif_load piexif frame_num));
  run exif_bytes <- lift (piexif_dump piexif exif);
  exec emit (PiexifInsert exif_bytes frame_num);
  print "Extracted image: " [VInt frame_num].

Fixpoint for_each {A : Type} (body : A -> M F unit) (l : list A) : M F unit :=
  match l with
  | [] => ret tt
  | a :: l' => exec body a; for_each body l'
  end.

(** [Mov2SeqImg._extract_images] *)
Definition _extract_images : M F unit :=
  run rows <- attr "merged_frame_list" merged_frame_list;
  for_each extract_image rows.

(** [Mov2SeqImg.convert] with [debug = False] (the debug branch only draws
    plots). *)
Definition convert (start_time_arg end_time_arg time_interval_arg
                      fps_arg : option F) : M F unit :=
  exec _set_params start_time_arg end_time_arg time_interval_arg fps_arg;
  exec print "----------------------------------" [];
  exec _get_frame_list;
  exec print "----------------------------------" [];
  exec _merge_gnss2frame_list;
  exec print "----------------------------------" [];
  _extract_images.

End Methods.

(** ** Statements of the design document, in its own words *)

Section Design.
Context {F : Type} `{PyFloat F}.

(** Degree, minute and second fields of a coordinate [v], from its
    magnitude [m = |v|], as the design document writes them. *)
Definition dms_deg (v : F) : Z := f_trunc (f_abs v).

Definition dms_min_arg (v : F) : F :=
  f_mul (f_sub (f_abs v) (f_of_int (dms_deg v))) (f_of_int 60).

Definition dms_min (v : F) : Z := f_trunc (dms_min_arg v).

Definition dms_sec_arg (v : F) : F :=
  f_mul (f_mul (f_sub (dms_min_arg v) (f_of_int (dms_min v))) (f_of_int 60))
        (f_of_int 100000).

Definition dms_sec (v : F) : Z := f_trunc (dms_sec_arg v).

Definition dms (v : F) : list (Z * Z) :=
  [(dms_deg v, 1); (dms_min v, 1); (dms_sec v, 100000)].

(** The three data that [int()] truncates are finite. *)
Definition dms_defined (v : F) : Prop :=
  f_class (f_abs v) = Finite /\
  f_class (dms_min_arg v) = Finite /\
  f_class (dms_sec_arg v) = Finite.

Definition lat_hemisphere (lat : F) : string :=
  if py_ge lat (f_of_int 0) then "N" else "S".

Definition lon_hemisphere (lon : F) : string :=
  if py_ge lon (f_of_int 0) then "E" else "W".

Definition altitude (ele : F) : Z * Z :=
  (f_trunc (f_mul ele (f_of_int 1000)), 1000).

(** The GPS block of an EXIF dictionary holds [v] under [tag]. *)
Definition gps_field (exif : ExifDict) (tag : Z) (v : ExifValue) : Prop :=
  exists ifd : gmap Z ExifValue,
    exif !! "GPS" = Some ifd /\ ifd !! tag = Some v.

End Design.

(** ** Vocabulary of the statements *)

Section Vocabulary.
Context {F : Type} `{PyFloat F}.

(** The start and end of the range after the defaults. *)
Definition effective_start (start_time_arg : option F) : F :=
  match start_time_arg with None => f_of_int 0 | Some t => t end.

Definition effective_end (o : Object F) (end_time_arg : option F) : F :=
  match end_time_arg with None => total_duration o | Some t => t end.

(** The rate a configuration asks for, as [_set_params] reads it:
    [time_interval] when it is given, else [fps]. *)
Definition requested_rate (time_interval_arg fps_arg : option F) : result F :=
  match time_interval_arg with
  | Some t => py_truediv (f_of_int 1) t
  | None =>
      match fps_arg with
      | Some f => Ok f
      | None => Raise (ValueError "Either time_interval or fps must be set.")
      end
  end.

(** The same, as the design document words it: [target_fps] when it is
    given, else [1 / time_interval]. *)
Definition designed_rate (time_interval_arg fps_arg : option F) : result F :=
  match fps_arg with
  | Some f => Ok f
  | None =>
      match time_interval_arg with
      | Some t => py_truediv (f_of_int 1) t
      | None => Raise (ValueError "Either time_interval or fps must be set.")
      end
  end.

Definition clamp_rate (rate r : F) : F := if py_gt r rate then rate else r.

Definition params_report (t0 t1 interval clip : F) : list (Event F) :=
  [ Print "Set parameters:" [];
    Print " start time: " [VFloat t0];
    Print " end time: " [VFloat t1];
    Print " time interval: " [VFloat interval];
    Print " clip fps: " [VFloat clip] ].

(** The lines [_get_frame_list] prints. *)
Definition frames_report (first last : Z) (n : nat) : list (Event F) :=
  [ Print "Frame list:" [];
    Print " start frame: " [VInt first];
    Print " end frame: " [VInt last];
    Print " number of frames: " [VInt (Z.of_nat n)] ].

(** The test that guards the synchronization warning. *)
Definition mismatch (duration : F) (last : GpsRow F) : bool :=
  py_gt (f_abs (f_sub duration (total_seconds (rel_time last))))
        (f_of_int 1).

Definition track_seconds (gps : list (GpsRow F)) : list F :=
  map (fun p => total_seconds (rel_time p)) gps.

(** The seek times and frames of the ffmpeg runs among some events. *)
Fixpoint seeks (evs : list (Event F)) : list (F * Z) :=
  match evs with
  | [] => []
  | FfmpegRun ss n :: evs' => (ss, n) :: seeks evs'
  | _ :: evs' => seeks evs'
  end.

(** The EXIF blocks written among some events. *)
Fixpoint writes (evs : list (Event F)) : list (Z * list byte) :=
  match evs with
  | [] => []
  | PiexifInsert data n :: evs' => (n, data) :: writes evs'
  | _ :: evs' => writes evs'
  end.

(** The object with another video duration. *)
Definition with_duration (d : F) (o : Object F) : Object F :=
  {| total_frames := total_frames o; total_duration := d;
     fps := fps o; gps_data := gps_data o;
     start_time := start_time o; end_time := end_time o;
     time_interval := time_interval o; clip_fps := clip_fps o;
     frame_list := frame_list o;
     lat_interp := lat_interp o; lon_interp := lon_interp o;
     ele_interp := ele_interp o;
     merged_frame_list := merged_frame_list o |}.

Fixpoint strictly_increasing (xs : list F) : bool :=
  match xs with
  | x :: (y :: _) as rest => f_ltb x y && strictly_increasing rest
  | _ => true
  end.

(** Modelled from the spec: the construction of the track interpolant, which
    the source leaves to [scipy.interpolate.interp1d] (not part of the
    sources).  It fails when fewer than 3 fixes are supplied or when their
    elapsed times are not strictly increasing; [spline] stands for the
    piecewise quadratic curve through the fixes, extrapolated outside them. *)
Definition build_interpolant (spline : list F -> list F -> F -> F)
    (xs ys : list F) : result (F -> F) :=
  if (length xs <? 3)%nat then Raise InterpolationError
  else if strictly_increasing xs then Ok (spline xs ys)
  else Raise InterpolationError.

End Vocabulary.

(** A frame number in exact arithmetic: position [x] clipped to the frames and
    converted. *)
Definition frame_of (frames : Z) (x : Q) : Z :=
  np_int64 (np_clip (inject_Z 0) (inject_Z (frames - 1)) x).

(** ** Sample data *)

Module Sample.

(** A 10 s video of 300 frames at 30 frames per second, with a track of three
    fixes at 0 s, 5 s and 10 s. *)
Definition gps_fix (seconds : Z) (lat lon ele : B64.float) : GpsRow B64.float :=
  {| rel_time := Td (seconds * 1000000000);
     gps_lat := lat; gps_lon := lon; gps_ele := ele |}.

Definition track : list (GpsRow B64.float) :=
  [ gps_fix 0 (B64.decimal 356895 4) (B64.decimal 1396917 4) (B64.decimal 40 0);
    gps_fix 5 (B64.decimal 356896 4) (B64.decimal 1396918 4) (B64.decimal 41 0);
    gps_fix 10 (B64.decimal 356897 4) (B64.decimal 1396919 4) (B64.decimal 42 0) ].

Definition video : Object B64.float :=
  init 300 (B64.of_int 10) (B64.of_int 30) track.

Definition world : World B64.float := {| self := video; events := [] |}.

(** The same video in exact arithmetic, configured for 3 samples per second
    over the first 2 s. *)
Definition exact_video : Object Q :=
  set_clip_fps (3 # 1)%Q
    (set_end_time (2 # 1)%Q
       (set_start_time (0 # 1)%Q (init 300 (10 # 1)%Q (30 # 1)%Q []))).

Definition exact_world : World Q := {| self := exact_video; events := [] |}.

(** A stand-in for the interpolant: the first ordinate, whatever the time. *)
Definition flat_spline (xs ys : list B64.float) (t : B64.float) : B64.float :=
  match ys with
  | [] => t
  | y :: _ => y
  end.

Definition flat_interp1d (xs ys : list B64.float)
  : result (B64.float -> B64.float) :=
  Ok (flat_spline xs ys).

(** A stand-in for piexif: a fresh image has an empty GPS block, and every
    dictionary packs into the empty block. *)
Definition fresh_exif : Piexif :=
  {| piexif_load := fun _ => {[ "GPS" := ∅ ]};
     piexif_dump := fun _ => Ok [] |}.

(** A run of [convert(end_time = 2, fps = 1)] on the sample video. *)
Definition outcome : result unit * World B64.float :=
  convert flat_interp1d fresh_exif None (Some (B64.of_int 2)) None
          (Some (B64.of_int 1)) world.

(** A track that ends at 10 s under a video that lasts 11.5 s. *)
Definition long_video : Object B64.float :=
  set_frame_list [frame_row (B64.of_int 30) 0; frame_row (B64.of_int 30) 30]
                 (init 345 (B64.decimal 115 1) (B64.of_int 30) track).

(** A track of two fixes. *)
Definition short_track : list (GpsRow B64.float) :=
  [ gps_fix 0 (B64.decimal 356895 4) (B64.decimal 1396917 4) (B64.decimal 40 0);
    gps_fix 5 (B64.decimal 356896 4) (B64.decimal 1396918 4) (B64.decimal 41 0) ].

Definition short_world : World B64.float :=
  {| self := init 300 (B64.of_int 10) (B64.of_int 30) short_track;
     events := [] |}.

End Sample.

(** ** The constructor and the image file names *)

(** What [ffmpeg.probe] reports about the video, after the conversions of
    [_load_mov]: each field is the outcome of one look-up in the probe and of
    the [int()], [float()] or [strptime] applied to it, so a missing key or
    an unreadable string is a [Raise].  [rate_num] and [rate_den] are the two
    sides of [r_frame_rate] around its ['/']. *)
Record Probe (F : Type) : Type := {
  nb_frames : result Z;
  duration : result F;
  rate_num : result F;
  rate_den : result F;
  creation_time : result Z
}.
Arguments nb_frames {F} _.
Arguments duration {F} _.
Arguments rate_num {F} _.
Arguments rate_den {F} _.
Arguments creation_time {F} _.

(** A point of a parsed GPX file, with its time in microseconds. *)
Record GpxPoint (F : Type) : Type := {
  pt_time : Z;
  pt_latitude : F;
  pt_longitude : F;
  pt_elevation : F
}.
Arguments pt_time {F} _.
Arguments pt_latitude {F} _.
Arguments pt_longitude {F} _.
Arguments pt_elevation {F} _.

(** What the constructor does outside the object: a directory made, or a
    line printed. *)
Inductive SetupEvent (F : Type) : Type :=
| MakeDir
| Out (e : Event F).
Arguments MakeDir {F}.
Arguments Out {F} e.

Section Constructor.
Context {F : Type} `{PyFloat F}.

(** The values [_load_mov] assigns: [total_frames], [total_duration], [fps]
    (the path printed on its first line is left out of the event). *)
Definition _load_mov (p : Probe F) : result (Z * F * F) * list (Event F) :=
  match
    do frames <- nb_frames p;
    do total <- duration p;
    do num <- rate_num p;
    do den <- rate_den p;
    do rate <- py_truediv num den;
    do created <- creation_time p;
    Ok (frames, total, rate)
  with
  | Raise e => (Raise e, [])
  | Ok (frames, total, rate) =>
      let report :=
        [ Print "Loaded mov file: " [];
          Print " total frames: " [VInt frames];
          Print " total duration: " [VFloat total] ] in
      match py_truediv (f_of_int frames) total with
      | Raise e => (Raise e, report)
      | Ok ratio =>
          (Ok (frames, total, rate),
           report ++ [ Print " frames/duration: " [VFloat ratio];
                       Print " fps: " [VFloat rate] ])
      end
  end.

(** The points of a GPX file in the order of the three nested loops: tracks,
    their segments, their points. *)
Definition gpx_points (gpx : list (list (list (GpxPoint F))))
  : list (GpxPoint F) :=
  concat (map (@concat (GpxPoint F)) gpx).

(** [gps_data.tracks[0].segments[0].points[0].time] *)
Definition first_time (gpx : list (list (list (GpxPoint F)))) : result Z :=
  do track <- iloc_first gpx;
  do segment <- iloc_first track;
  do point <- iloc_first segment;
  Ok (pt_time point).

(** The row appended for a point: its time relative to [t0] as a time delta
    of nanoseconds. *)
Definition gps_row (t0 : Z) (p : GpxPoint F) : GpsRow F :=
  {| rel_time := Td ((pt_time p - t0) * 1000);
     gps_lat := pt_latitude p;
     gps_lon := pt_longitude p;
     gps_ele := pt_elevation p |}.

Fixpoint collect {A B : Type} (f : A -> result B) (l : list A)
  : result (list B) :=
  match l with
  | [] => Ok []
  | a :: l' =>
      do b <- f a;
      do bs <- collect f l';
      Ok (b :: bs)
  end.

(** [_load_gpx]: the rows of [self.gps_data] and the lines printed. *)
Definition _load_gpx (gpx : list (list (list (GpxPoint F))))
  : result (list (GpsRow F)) * list (Event F) :=
  match
    collect (fun p => do t0 <- first_time gpx; Ok (gps_row t0 p))
            (gpx_points gpx)
  with
  | Raise e => (Raise e, [])
  | Ok data =>
      let report :=
        [ Print "Loaded gpx file: " [];
          Print " Number of track points: "
                [VInt (Z.of_nat (length data))] ] in
      match iloc_last data with
      | Raise e => (Raise e, report)
      | Ok last =>
          (Ok data,
           report ++
           [ Print " Duration: " [VFloat (total_seconds (rel_time last))] ])
      end
  end.

(** [_create_seq_image_dir], given whether the directory exists. *)
Definition _create_seq_image_dir (dir_exists : bool) : list (SetupEvent F) :=
  if dir_exists then [Out (Print "Directory already exists: " [])]
  else [MakeDir; Out (Print "Created directory: " [])].

(** [Mov2SeqImg.__init__]: the object built, when nothing raises. *)
Definition __init__ (dir_exists : bool) (p : Probe F)
    (gpx : list (list (list (GpxPoint F))))
  : result (Object F) * list (SetupEvent F) :=
  let rule := Out (Print "----------------------------------" []) in
  let setup := rule :: _create_seq_image_dir dir_exists in
  match _load_mov p with
  | (Raise e, evs) => (Raise e, setup ++ map Out evs)
  | (Ok (frames, total, rate), evs) =>
      match _load_gpx gpx with
      | (Raise e, evs') => (Raise e, setup ++ map Out evs ++ map Out evs')
      | (Ok data, evs') =>
          (Ok (init frames total rate data),
           setup ++ map Out evs ++ map Out evs' ++ [rule])
      end
  end.

End Constructor.

(** [f"{n:06d}"]: the decimal digits of [n], padded with zeros after the sign
    to a width of 6. *)
Definition format_06d (n : Z) : string :=
  let digits := N.to_uint (Z.abs_N n) in
  if n <? 0 then
    String "-"%char
      (DecimalString.NilEmpty.string_of_uint
         (Nat.iter (5 - Decimal.nb_digits digits) Decimal.D0 digits))
  else
    DecimalString.NilEmpty.string_of_uint
      (Nat.iter (6 - Decimal.nb_digits digits) Decimal.D0 digits).

(** The name of the image of a frame:
    [f"{self.mov_file_path.stem}_{frame_num:06d}.jpeg"]. *)
Definition img_file_name (stem : string) (frame_num : Z) : string :=
  String.append stem
    (String.append "_" (String.append (format_06d frame_num) ".jpeg")).

(** The five assignments of the loop body, on the GPS block. *)
Definition geotag {F : Type} `{PyFloat F} (lat lon ele : F)
    (ifd : gmap Z ExifValue) : gmap Z ExifValue :=
  <[GPSIFD.GPSAltitude := ExifRational (altitude ele)]>
    (<[GPSIFD.GPSLongitudeRef := ExifAscii (lon_hemisphere lon)]>
       (<[GPSIFD.GPSLongitude := ExifRationals (dms lon)]>
          (<[GPSIFD.GPSLatitudeRef := ExifAscii (lat_hemisphere lat)]>
             (<[GPSIFD.GPSLatitude := ExifRationals (dms lat)]> ifd)))).

(** Sample inputs of the constructor: the probe of a 10 s video at 30 fps
    and a GPX file of one track with two segments. *)
Module Footage.

Definition probe : Probe B64.float :=
  {| nb_frames := Ok 300; duration := Ok (B64.of_int 10);
     rate_num := Ok (B64.of_int 30); rate_den := Ok (B64.of_int 1);
     creation_time := Ok 0 |}.

Definition still_probe : Probe B64.float :=
  {| nb_frames := Ok 300; duration := Ok (B64.of_int 0);
     rate_num := Ok (B64.of_int 30000); rate_den := Ok (B64.of_int 1001);
     creation_time := Ok 0 |}.

Definition point (seconds : Z) : GpxPoint B64.float :=
  {| pt_time := 1728086400000000 + seconds * 1000000;
     pt_latitude := B64.decimal 356895 4;
     pt_longitude := B64.decimal 1396917 4;
     pt_elevation := B64.of_int 40 |}.

Definition gpx : list (list (list (GpxPoint B64.float))) :=
  [[[point 0; point 5]; [point 10]]].

(** Two merged records: one with coordinates, one whose latitude is NaN. *)
Definition good_row : MergedRow B64.float :=
  {| m_frame_num := 0; m_time_stamp := Td 0;
     m_lat := B64.decimal 356895 4; m_lon := B64.decimal 1396917 4;
     m_ele := B64.of_int 40 |}.

Definition nan_row : MergedRow B64.float :=
  {| m_frame_num := 30; m_time_stamp := Td 1000000000;
     m_lat := S754_nan; m_lon := B64.decimal 1396917 4;
     m_ele := B64.of_int 40 |}.

(** A dictionary that already holds a camera model and a GPS time stamp. *)
Definition camera_exif : ExifDict :=
  {[ "0th" := {[ 272 := ExifAscii "HERO" ]};
     "GPS" := {[ 7 := ExifRationals [(12, 1); (0, 1); (0, 1)] ]} ]}.

End Footage.

(** ** The geotag encoder *)

Section EncoderFacts.
Context {F : Type} `{PyFloat F}.

Lemma py_int_finite (x : F) :
  f_class x = Finite -> py_int x = Ok (f_trunc x).
Proof. unfold py_int. intros ->. reflexivity. Qed.

Lemma py_int_ok (x : F) (n : Z) :
  py_int x = Ok n -> f_class x = Finite /\ n = f_trunc x.
Proof.
  unfold py_int. destruct (f_class x); intros E; inversion E; auto.
Qed.

Lemma latlon_to_rational_dms (v : F) :
  dms_defined v -> latlon_to_rational v = Ok (dms v).
Proof.
  intros (Hd & Hm & Hs). unfold latlon_to_rational.
  rewrite (py_int_finite _ Hd). cbn [rbind].
  fold (dms_deg v). fold (dms_min_arg v).
  rewrite (py_int_finite _ Hm). cbn [rbind].
  fold (dms_min v). fold (dms_sec_arg v).
  rewrite (py_int_finite _ Hs). reflexivity.
Qed.

Lemma latlon_to_rational_ok (v : F) (r : list (Z * Z)) :
  latlon_to_rational v = Ok r -> dms_defined v /\ r = dms v.
Proof.
  unfold latlon_to_rational. intros E.
  destruct (py_int (f_abs v)) as [d|] eqn:Ed; [|discriminate].
  apply py_int_ok in Ed as [Hd ->]. cbn [rbind] in E.
  fold (dms_deg v) in E. fold (dms_min_arg v) in E.
  destruct (py_int (dms_min_arg v)) as [m|] eqn:Em; [|discriminate].
  apply py_int_ok in Em as [Hm ->]. cbn [rbind] in E.
  fold (dms_min v) in E. fold (dms_sec_arg v) in E.
  destruct (py_int (dms_sec_arg v)) as [s|] eqn:Es; [|discriminate].
  apply py_int_ok in Es as [Hs ->]. cbn [rbind] in E.
  inversion E. split; [repeat split; assumption | reflexivity].
Qed.

Lemma ele_to_rational_altitude (ele : F) :
  f_class (f_mul ele (f_of_int 1000)) = Finite ->
  ele_to_rational ele = Ok (altitude ele).
Proof.
  intros Hc. unfold ele_to_rational. rewrite (py_int_finite _ Hc).
  reflexivity.
Qed.

Lemma ele_to_rational_ok (ele : F) (r : Z * Z) :
  ele_to_rational ele = Ok r ->
  f_class (f_mul ele (f_of_int 1000)) = Finite /\ r = altitude ele.
Proof.
  unfold ele_to_rational. intros E.
  destruct (py_int (f_mul ele (f_of_int 1000))) as [n|] eqn:En;
    [|discriminate].
  apply py_int_ok in En as [Hc ->]. inversion E. auto.
Qed.

Lemma set_gps_ok (tag : Z) (v : ExifValue) (exif exif' : ExifDict) :
  set_gps tag v exif = Ok exif' ->
  gps_field exif' tag v /\
  (forall tag' v', tag' <> tag -> gps_field exif tag' v' ->
                   gps_field exif' tag' v').
Proof.
  unfold set_gps. destruct (exif !! "GPS") as [ifd|] eqn:E; [|discriminate].
  intros [= <-]. split.
  - exists (<[tag := v]> ifd). split.
    + apply lookup_insert_eq.
    + apply lookup_insert_eq.
  - intros tag' v' Hne (ifd' & E1 & E2). rewrite E in E1.
    injection E1 as <-. exists (<[tag := v]> ifd). split.
    + apply lookup_insert_eq.
    + rewrite lookup_insert_ne; auto.
Qed.

(** What the loop body leaves in the GPS block when it does not raise. *)
Lemma tag_exif_ok (lat lon ele : F) (exif exif' : ExifDict) :
  tag_exif lat lon ele exif = Ok exif' ->
  gps_field exif' GPSIFD.GPSLatitude (ExifRationals (dms lat)) /\
  gps_field exif' GPSIFD.GPSLatitudeRef (ExifAscii (lat_hemisphere lat)) /\
  gps_field exif' GPSIFD.GPSLongitude (ExifRationals (dms lon)) /\
  gps_field exif' GPSIFD.GPSLongitudeRef (ExifAscii (lon_hemisphere lon)) /\
  gps_field exif' GPSIFD.GPSAltitude (ExifRational (altitude ele)) /\
  ele_to_rational ele = Ok (altitude ele).
Proof.
  unfold tag_exif. intros E.
  destruct (latlon_to_rational lat) as [v1|] eqn:E1; [|discriminate].
  apply latlon_to_rational_ok in E1 as [_ ->]. cbn [rbind] in E.
  destruct (set_gps _ _ exif) as [x1|] eqn:S1; [|discriminate].
  cbn [rbind] in E.
  destruct (set_gps _ _ x1) as [x2|] eqn:S2; [|discriminate].
  cbn [rbind] in E.
  destruct (latlon_to_rational lon) as [v2|] eqn:E2; [|discriminate].
  apply latlon_to_rational_ok in E2 as [_ ->]. cbn [rbind] in E.
  destruct (set_gps _ _ x2) as [x3|] eqn:S3; [|discriminate].
  cbn [rbind] in E.
  destruct (set_gps _ _ x3) as [x4|] eqn:S4; [|discriminate].
  cbn [rbind] in E.
  destruct (ele_to_rational ele) as [v3|] eqn:E3; [|discriminate].
  pose proof E3 as E3'.
  apply ele_to_rational_ok in E3 as [_ ->]. cbn [rbind] in E.
  apply set_gps_ok in S1 as [A1 _], S2 as [A2 K2], S3 as [A3 K3],
      S4 as [A4 K4], E as [A5 K5].
  unfold GPSIFD.GPSLatitude, GPSIFD.GPSLatitudeRef, GPSIFD.GPSLongitude,
    GPSIFD.GPSLongitudeRef, GPSIFD.GPSAltitude in *.
  assert (D : forall a b : Z, (a =? b) = false -> a <> b)
    by (intros a b; apply Z.eqb_neq).
  split; [apply K5, K4, K3, K2; auto|].
  split; [apply K5, K4, K3; auto|].
  split; [apply K5, K4; auto|].
  split; [apply K5; auto|].
  split; auto.
Qed.

End EncoderFacts.

(** Binary64 facts behind the encoder. *)
Module B64Facts.
Import B64.

(** [trunc] rounds toward zero: it is the quotient of [Z.quot] applied to
    the datum [(-1)^s * m * 2^e] written as a fraction. *)
Lemma trunc_toward_zero (s : bool) (m : positive) (e : Z) :
  trunc (S754_finite s m e) =
  Z.quot (cond_Zopp s (Zpos m) * 2 ^ Z.max e 0) (2 ^ Z.max (- e) 0).
Proof.
  unfold trunc. destruct (Z.le_gt_cases 0 e) as [He|He].
  - rewrite (Z.max_l e 0), (Z.max_r (- e) 0) by lia.
    rewrite Z.pow_0_r, Z.quot_1_r, Z.shiftl_mul_pow2 by lia.
    destruct s; cbn [cond_Zopp]; lia.
  - rewrite (Z.max_r e 0), (Z.max_l (- e) 0) by lia.
    rewrite Z.pow_0_r, Z.mul_1_r.
    replace e with (- (- e)) at 1 by lia.
    rewrite <- Z.shiftr_opp_r, Z.opp_involutive.
    rewrite Z.shiftr_div_pow2 by lia.
    assert (0 < 2 ^ (- e)) by (apply Z.pow_pos_nonneg; lia).
    destruct s; cbn [cond_Zopp].
    + rewrite Z.quot_opp_l by lia. rewrite Z.quot_div_nonneg by lia.
      reflexivity.
    + rewrite Z.quot_div_nonneg by lia. reflexivity.
Qed.

Lemma ltb_zero_negative (x : float) :
  SFltb x (of_int 0) = true ->
  x = S754_infinity true \/ exists m e, x = S754_finite true m e.
Proof.
  destruct x as [s|[]| |[] m e]; cbn; try discriminate; eauto.
Qed.

Lemma round_aux_sign (s : bool) (m e : Z) (l : location) :
  match binary_round_aux prec emax s m e l with
  | S754_zero s' | S754_infinity s' | S754_finite s' _ _ => s' = s
  | S754_nan => True
  end.
Proof.
  unfold binary_round_aux.
  destruct (shr_fexp prec emax m e l) as [mrs' e'].
  destruct (shr_fexp prec emax _ e' loc_Exact) as [mrs'' e''].
  destruct (shr_m mrs''); auto.
  destruct (e'' <=? emax - prec); auto.
Qed.

Lemma trunc_negative_sign (x : float) :
  match x with
  | S754_zero _ | S754_finite true _ _ => trunc x <= 0
  | _ => True
  end.
Proof.
  destruct x as [s| | |[] m e]; cbn; auto; try lia.
  pose proof (proj2 (Z.shiftl_nonneg (Zpos m) e)).
  lia.
Qed.

(** The product of a negative datum with [1000], when finite, truncates to
    an integer that is not positive. *)
Lemma negative_times_1000 (x : float) :
  SFltb x (of_int 0) = true ->
  classify (SFmul prec emax x (of_int 1000)) = Finite ->
  trunc (SFmul prec emax x (of_int 1000)) <= 0.
Proof.
  intros Hlt Hfin.
  destruct (ltb_zero_negative x Hlt) as [-> | (m & e & ->)].
  - discriminate Hfin.
  - pose proof (trunc_negative_sign (SFmul prec emax (S754_finite true m e)
                                              (of_int 1000))) as T.
    change (of_int 1000) with (S754_finite false 8796093022208000 (-43)) in *.
    cbn [SFmul xorb] in *.
    pose proof (round_aux_sign true
                  (Z.pos (m * 8796093022208000)) (e + -43) loc_Exact) as S.
    destruct (binary_round_aux _ _ _ _ _ _) as [s'|s'| |s' m' e'];
      try discriminate Hfin; subst; auto.
Qed.

End B64Facts.

(** ** Configuration resolution *)

Section SetParamsFacts.
Context {F : Type} `{PyFloat F}.

(** The whole effect of [_set_params]. *)
Lemma _set_params_run (st et ti fa : option F) (w : World F) :
  let t0 := effective_start st in
  let t1 := effective_end (self w) et in
  let o1 := set_end_time t1 (set_start_time t0 (self w)) in
  _set_params st et ti fa w =
  if f_leb t1 t0 then
    (Raise (ValueError "end_time must be greater than start_time."),
     {| self := o1; events := events w |})
  else
    match resolve_rate (fps (self w)) ti fa with
    | Raise e => (Raise e, {| self := o1; events := events w |})
    | Ok r =>
        (Ok tt,
         {| self := set_clip_fps (snd r) (set_time_interval (fst r) o1);
            events := events w ++ params_report t0 t1 (fst r) (snd r) |})
    end.
Proof.
  destruct w as [o evs]. unfold _set_params, effective_start, effective_end.
  destruct st as [t0|], et as [t1|]; cbn;
    (destruct (f_leb _ _); [reflexivity|]); cbn;
    (destruct (resolve_rate (fps o) ti fa) as [[i c]|e]; cbn;
     [|reflexivity]);
    unfold params_report, print, emit; cbn;
    rewrite <- !app_assoc; reflexivity.
Qed.

Lemma py_truediv_error (x y : F) (e : Error) :
  py_truediv x y = Raise e -> e = ZeroDivisionError.
Proof.
  unfold py_truediv. destruct (f_is_zero y); intros E; inversion E; auto.
Qed.

(** [resolve_rate] clamps the requested rate, and fails as it fails. *)
Lemma resolve_rate_ok (rate : F) (ti fa : option F) (i c : F) :
  resolve_rate rate ti fa = Ok (i, c) ->
  exists r, requested_rate ti fa = Ok r /\ c = clamp_rate rate r /\
    (py_gt r rate = true \/ ti = None -> py_truediv (f_of_int 1) c = Ok i) /\
    (py_gt r rate = false -> forall t, ti = Some t -> i = t).
Proof.
  unfold resolve_rate, requested_rate, clamp_rate.
  destruct ti as [t|]; [|destruct fa as [f|]; [|discriminate]].
  - destruct (py_truediv (f_of_int 1) t) as [r|] eqn:Er; [|discriminate].
    cbn [rbind]. destruct (py_gt r rate) eqn:G.
    + destruct (py_truediv (f_of_int 1) rate) as [i'|] eqn:Ei; [|discriminate].
      cbn [rbind]. intros [= <- <-]. exists r. rewrite G.
      split; [reflexivity|]. split; [reflexivity|].
      split; [intros _; exact Ei | discriminate].
    + intros [= <- <-]. exists r. rewrite G.
      split; [reflexivity|]. split; [reflexivity|].
      split; [intros [?|?]; discriminate | intros _ t' [= ->]; reflexivity].
  - destruct (py_truediv _ _) as [i'|] eqn:Ei; [|discriminate].
    cbn [rbind]. intros [= <- <-]. exists f.
    split; [reflexivity|]. split; [reflexivity|].
    split; [intros _; exact Ei | intros _ t' ?; discriminate].
Qed.

Lemma resolve_rate_error (rate : F) (ti fa : option F) (e : Error) :
  resolve_rate rate ti fa = Raise e ->
  (ti = None /\ fa = None /\
   e = ValueError "Either time_interval or fps must be set.") \/
  ((ti <> None \/ fa <> None) /\ e = ZeroDivisionError).
Proof.
  unfold resolve_rate.
  destruct ti as [t|]; [|destruct fa as [f|]].
  - destruct (py_truediv (f_of_int 1) t) as [r|] eqn:Er; cbn [rbind].
    + destruct (py_gt r rate); [|discriminate].
      destruct (py_truediv (f_of_int 1) rate) eqn:Ei; [discriminate|].
      cbn [rbind]. intros [= <-]. right. split; [left; discriminate|].
      eapply py_truediv_error; eauto.
    + intros [= <-]. right. split; [left; discriminate|].
      eapply py_truediv_error; eauto.
  - destruct (py_truediv _ _) eqn:Ei; [discriminate|].
    cbn [rbind]. intros [= <-]. right. split; [right; discriminate|].
    eapply py_truediv_error; eauto.
  - intros [= <-]. left. auto.
Qed.

End SetParamsFacts.

(** ** Running the methods *)

Section Runs.
Context {F : Type} `{PyFloat F}.
Variable interp1d : list F -> list F -> result (F -> F).
Variable piexif : Piexif.

Lemma iloc_last_cons {A : Type} (a : A) (l : list A) :
  iloc_last (a :: l) = Ok (List.last l a).
Proof.
  unfold iloc_last. revert a. induction l as [|b l IH] using rev_ind; intros a.
  - reflexivity.
  - rewrite app_comm_cons, rev_app_distr, last_last. reflexivity.
Qed.

(** The whole effect of [_get_frame_list] once [_set_params] has run. *)
Lemma _get_frame_list_run (w : World F) (t0 t1 clip : F) :
  start_time (self w) = Some t0 ->
  end_time (self w) = Some t1 ->
  clip_fps (self w) = Some clip ->
  _get_frame_list w =
  match frame_numbers (fps (self w)) clip t0 t1 (total_frames (self w)) with
  | Raise e => (Raise e, w)
  | Ok nums =>
      let o := set_frame_list (map (frame_row (fps (self w))) nums) (self w) in
      match nums with
      | [] =>
          (Raise IndexError,
           {| self := o; events := events w ++ [Print "Frame list:" []] |})
      | first :: rest =>
          (Ok tt,
           {| self := o;
              events := events w ++
                        frames_report first (List.last rest first)
                                      (length nums) |})
      end
  end.
Proof.
  destruct w as [o evs]. cbn [self events]. intros E0 E1 Ec.
  unfold _get_frame_list, bind, attr, get, lift, update, print, emit.
  cbn [self events]. rewrite E0. cbn [self events].
  rewrite E1. cbn [self events]. rewrite Ec. cbn [self events].
  destruct (frame_numbers _ _ _ _ _) as [nums|e]; [|reflexivity].
  cbn [self events].
  destruct nums as [|a rest]; [reflexivity|].
  rewrite iloc_last_cons. cbn [iloc_first self events].
  unfold frames_report. rewrite <- !app_assoc. reflexivity.
Qed.

(** The whole effect of [_merge_gnss2frame_list]. *)
Lemma _merge_gnss2frame_list_run (w : World F) :
  let o := self w in
  let gps := gps_data o in
  _merge_gnss2frame_list interp1d w =
  match iloc_last gps with
  | Raise e => (Raise e, w)
  | Ok last =>
      let evs := events w ++
                 (if mismatch (total_duration o) last then sync_warning
                  else []) in
      match interp1d (track_seconds gps) (map gps_lat gps) with
      | Raise e => (Raise e, {| self := o; events := evs |})
      | Ok lat =>
      let o := set_lat_interp lat o in
      match interp1d (track_seconds gps) (map gps_lon gps) with
      | Raise e => (Raise e, {| self := o; events := evs |})
      | Ok lon =>
      let o := set_lon_interp lon o in
      match interp1d (track_seconds gps) (map gps_ele gps) with
      | Raise e => (Raise e, {| self := o; events := evs |})
      | Ok ele =>
      let o := set_ele_interp ele o in
      match frame_list o with
      | None => (Raise (AttributeError "frame_list"),
                 {| self := o; events := evs |})
      | Some frames =>
          (Ok tt,
           {| self := set_merged_frame_list
                        (map (merged_row lat lon ele) frames) o;
              events := evs |})
      end end end end
  end.
Proof.
  destruct w as [o evs]. cbn [self events].
  unfold _merge_gnss2frame_list, bind, attr, get, lift, update, print, emit,
    ret, mismatch, track_seconds, sync_warning.
  cbn [self events].
  destruct (iloc_last (gps_data o)) as [last|e]; [|reflexivity].
  destruct (py_gt _ _); cbn [self events];
    rewrite <- ?app_assoc, ?app_nil_r; cbn [app];
    (destruct (interp1d _ (map gps_lat _)) as [lat|]; [|reflexivity]);
    (destruct (interp1d _ (map gps_lon _)) as [lon|]; [|reflexivity]);
    (destruct (interp1d _ (map gps_ele _)) as [ele|]; [|reflexivity]);
    cbn [self events frame_list set_ele_interp set_lon_interp set_lat_interp];
    destruct (frame_list o); reflexivity.
Qed.

Lemma seeks_app (a b : list (Event F)) : seeks (a ++ b) = seeks a ++ seeks b.
Proof.
  induction a as [|[] a IH]; cbn; rewrite ?IH; reflexivity.
Qed.

Lemma writes_app (a b : list (Event F)) :
  writes (a ++ b) = writes a ++ writes b.
Proof.
  induction a as [|[] a IH]; cbn; rewrite ?IH; reflexivity.
Qed.

(** The whole effect of one iteration of the extraction loop. *)
Lemma extract_image_run (row : MergedRow F) (w : World F) :
  let n := m_frame_num row in
  let ss := f_div (f_of_int n) (fps (self w)) in
  extract_image piexif row w =
  if f_is_zero (fps (self w)) then (Raise ZeroDivisionError, w)
  else
    match
      do exif <- tag_exif (m_lat row) (m_lon row) (m_ele row)
                          (piexif_load piexif n);
      piexif_dump piexif exif
    with
    | Raise e =>
        (Raise e,
         {| self := self w; events := events w ++ [FfmpegRun ss n] |})
    | Ok data =>
        (Ok tt,
         {| self := self w;
            events := events w ++
                      [FfmpegRun ss n; PiexifInsert data n;
                       Print "Extracted image: " [VInt n]] |})
    end.
Proof.
  destruct w as [o evs]. cbn [self events].
  unfold extract_image, bind, get, lift, emit, print, py_truediv.
  cbn [self events].
  destruct (f_is_zero (fps o)); [reflexivity|].
  destruct (tag_exif _ _ _ _) as [exif|]; [|reflexivity].
  cbn [rbind self events].
  destruct (piexif_dump piexif exif); [|reflexivity].
  unfold emit. cbn [self events]. rewrite <- !app_assoc. reflexivity.
Qed.

(** A loop that ends normally has sought every row, in order, at its frame
    number over the frame rate, and has written one block per row. *)
Lemma for_each_extract_ok (rows : list (MergedRow F)) (w w' : World F) :
  for_each (extract_image piexif) rows w = (Ok tt, w') ->
  self w' = self w /\
  seeks (events w') =
    seeks (events w) ++
    map (fun r => (f_div (f_of_int (m_frame_num r)) (fps (self w)),
                   m_frame_num r)) rows /\
  exists blocks,
    writes (events w') = writes (events w) ++ blocks /\
    Forall2 (fun r b =>
               fst b = m_frame_num r /\
               exists exif,
                 tag_exif (m_lat r) (m_lon r) (m_ele r)
                          (piexif_load piexif (m_frame_num r)) = Ok exif /\
                 piexif_dump piexif exif = Ok (snd b))
            rows blocks.
Proof.
  revert w. induction rows as [|r rows IH]; intros w; cbn [for_each].
  - unfold ret. intros [= <-]. rewrite !app_nil_r.
    split; [reflexivity|]. split; [reflexivity|].
    exists []. rewrite app_nil_r. split; [reflexivity | constructor].
  - unfold bind at 1. rewrite extract_image_run.
    destruct (f_is_zero (fps (self w))); [discriminate|].
    destruct (tag_exif _ _ _ _) as [exif|] eqn:T; [|discriminate].
    cbn [rbind].
    destruct (piexif_dump piexif exif) as [data|] eqn:D; [|discriminate].
    intros E. apply IH in E as (Es & Ek & blocks & Ew & Hb).
    cbn [self events] in *. split; [exact Es|]. split.
    + rewrite Ek, seeks_app. cbn [seeks map]. rewrite <- app_assoc.
      reflexivity.
    + exists ((m_frame_num r, data) :: blocks). split.
      * rewrite Ew, writes_app. cbn [writes]. rewrite <- app_assoc.
        reflexivity.
      * constructor; [|exact Hb]. split; [reflexivity|].
        exists exif. auto.
Qed.

End Runs.

(** ** The sampler in exact arithmetic *)

Module ExactFacts.
Import Exact.
Local Open Scope Q_scope.

Lemma ltb_spec (x y : Q) : ltb x y = true <-> x < y.
Proof.
  unfold ltb. rewrite negb_true_iff. split.
  - intros E. apply Qnot_le_lt. intros L. apply Qle_bool_iff in L. congruence.
  - intros L. destruct (Qle_bool y x) eqn:E; [|reflexivity].
    apply Qle_bool_iff in E. exfalso. apply (Qlt_not_le _ _ L E).
Qed.

Lemma ltb_false (x y : Q) : ltb x y = false <-> y <= x.
Proof.
  unfold ltb. rewrite negb_false_iff. apply Qle_bool_iff.
Qed.

Lemma is_zero_false (q : Q) : ~ q == 0 -> is_zero q = false.
Proof.
  unfold is_zero, Qeq. cbn. intros N. apply Z.eqb_neq. lia.
Qed.

(** On a datum that is not negative, [trunc] is the floor. *)
Lemma trunc_floor (q : Q) : 0 <= q -> trunc q = Qfloor q.
Proof.
  destruct q as [n d]. unfold Qle, trunc, Qfloor. cbn. intros Hn.
  apply Z.quot_div_nonneg; lia.
Qed.

Ltac order_hyps :=
  repeat match goal with
         | E : ltb _ _ = true |- _ => apply ltb_spec in E
         | E : ltb _ _ = false |- _ => apply ltb_false in E
         end.

(** [np_clip] puts a datum between its bounds and keeps the order. *)
Lemma np_clip_bounds (lo hi x : Q) :
  lo <= hi -> lo <= np_clip lo hi x /\ np_clip lo hi x <= hi.
Proof.
  intros B. unfold np_clip, is_nan. cbn.
  destruct (ltb lo x) eqn:E1.
  - destruct (ltb x hi) eqn:E2; order_hyps; split; lra.
  - destruct (ltb lo hi) eqn:E2; order_hyps; split; lra.
Qed.

Lemma np_clip_monotone (lo hi x y : Q) :
  x <= y -> np_clip lo hi x <= np_clip lo hi y.
Proof.
  intros L. unfold np_clip, is_nan. cbn.
  destruct (ltb lo x) eqn:X1, (ltb lo y) eqn:Y1.
  - destruct (ltb x hi) eqn:X2, (ltb y hi) eqn:Y2; order_hyps; lra.
  - order_hyps; lra.
  - destruct (ltb lo hi) eqn:X2, (ltb y hi) eqn:Y2; order_hyps; lra.
  - order_hyps; lra.
Qed.

Lemma frame_of_floor (frames : Z) (x : Q) :
  (1 <= frames <= 2 ^ 63)%Z ->
  frame_of frames x = Qfloor (np_clip 0 (inject_Z (frames - 1)) x) /\
  (0 <= frame_of frames x <= frames - 1)%Z.
Proof.
  intros Hf. unfold frame_of.
  assert (B : 0 <= inject_Z (frames - 1))
    by (rewrite <- (Zle_Qle 0); lia).
  change (inject_Z 0) with 0.
  destruct (np_clip_bounds 0 (inject_Z (frames - 1)) x B) as [L U].
  set (c := np_clip 0 (inject_Z (frames - 1)) x) in *.
  assert (R : (0 <= Qfloor c <= frames - 1)%Z).
  { split.
    - change 0%Z with (Qfloor 0). apply Qfloor_resp_le, L.
    - rewrite <- (Qfloor_Z (frames - 1)). apply Qfloor_resp_le, U. }
  unfold np_int64. cbn [f_class f_trunc exact_float].
  rewrite (trunc_floor c L).
  assert (I : (- 2 ^ 63 <= Qfloor c)%Z) by lia.
  assert (J : (Qfloor c < 2 ^ 63)%Z) by lia.
  apply Z.leb_le in I. apply Z.ltb_lt in J.
  rewrite I, J. cbn [andb]. auto.
Qed.

Lemma frame_of_monotone (frames : Z) (x y : Q) :
  (1 <= frames <= 2 ^ 63)%Z -> x <= y ->
  (frame_of frames x <= frame_of frames y)%Z.
Proof.
  intros Hf L.
  rewrite (proj1 (frame_of_floor frames x Hf)),
          (proj1 (frame_of_floor frames y Hf)).
  apply Qfloor_resp_le, np_clip_monotone, L.
Qed.

(** Element [i] of the arithmetic progression. *)
Lemma arange_item_value (start step : Q) (i : nat) :
  arange_item start (f_add start step) i ==
  start + inject_Z (Z.of_nat i) * step.
Proof.
  destruct i as [|[|i]]; cbn -[Z.of_nat inject_Z].
  - cbn. ring.
  - cbn. ring.
  - ring.
Qed.

Lemma arange_item_monotone (start step : Q) (i j : nat) :
  0 <= step -> (i <= j)%nat ->
  arange_item start (f_add start step) i <=
  arange_item start (f_add start step) j.
Proof.
  intros Hs Hij. rewrite !arange_item_value.
  assert (inject_Z (Z.of_nat i) <= inject_Z (Z.of_nat j))
    by (rewrite <- Zle_Qle; lia).
  nra.
Qed.

(** The ceiling and the floor of a datum differ by at most one. *)
Lemma ceiling_floor (x : Q) :
  (Qfloor x <= Qceiling x <= Qfloor x + 1)%Z.
Proof.
  pose proof (Qfloor_le x) as A. pose proof (Qlt_floor x) as B.
  pose proof (Qle_ceiling x) as C. pose proof (Qceiling_lt x) as D.
  split.
  - rewrite Zle_Qle. lra.
  - assert (E : inject_Z (Qceiling x - 1) < inject_Z (Qfloor x + 1)) by lra.
    rewrite <- Zlt_Qlt in E. lia.
Qed.

Lemma ceiling_positive (x : Q) : 0 < x -> (1 <= Qceiling x)%Z.
Proof.
  intros P. pose proof (Qle_ceiling x) as C.
  assert (E : inject_Z 0 < inject_Z (Qceiling x))
    by (change (inject_Z 0) with 0; lra).
  rewrite <- Zlt_Qlt in E. lia.
Qed.

(** The positions, and the count of them, that [frame_numbers] computes. *)
Lemma frame_numbers_exact (rate clip t0 t1 : Q) (frames : Z) :
  0 < rate -> 0 < clip ->
  let step := rate / clip in
  let start := t0 * rate in
  let positions :=
    map (arange_item start (start + step))
        (seq 0 (Z.to_nat (Qceiling ((t1 - t0) * clip)))) in
  np_arange start (t1 * rate) step = Ok positions /\
  frame_numbers rate clip t0 t1 frames = Ok (map (frame_of frames) positions) /\
  0 < step.
Proof.
  intros Hr Hc step start positions.
  assert (Hs : 0 < step).
  { unfold step. apply Qlt_shift_div_l; lra. }
  assert (Hl : (t1 * rate - t0 * rate) / step == (t1 - t0) * clip).
  { unfold step. field. split; lra. }
  assert (A : np_arange start (t1 * rate) step = Ok positions).
  { unfold np_arange, py_truediv.
    cbn [f_sub f_is_zero f_div f_class f_ceil f_add exact_float rbind].
    rewrite (is_zero_false step) by lra. cbn [rbind].
    change ((t1 * rate - start) / step)
      with ((t1 * rate - t0 * rate) / step).
    rewrite (Qceiling_comp _ _ Hl). reflexivity. }
  split; [exact A|]. split; [|exact Hs].
  unfold frame_numbers, py_truediv.
  cbn [f_mul f_is_zero f_div f_of_int exact_float rbind].
  rewrite (is_zero_false clip) by lra. cbn [rbind].
  fold step start. rewrite A. cbn [rbind].
  rewrite map_map. reflexivity.
Qed.

Lemma sorted_map_seq (f : nat -> Z) (a n : nat) :
  (forall i j, (i <= j)%nat -> (f i <= f j)%Z) ->
  StronglySorted Z.le (map f (seq a n)).
Proof.
  intros Hf. revert a. induction n as [|n IH]; intros a; cbn [seq map].
  - constructor.
  - constructor; [apply IH|].
    apply List.Forall_forall. intros x Hx.
    apply List.in_map_iff in Hx as (j & <- & Hj).
    apply List.in_seq in Hj. apply Hf. lia.
Qed.

(** The whole effect of [_get_frame_list] on a valid configuration. *)
Lemma get_frame_list_exact (w : World Q) (t0 t1 clip : Q) :
  start_time (self w) = Some t0 ->
  end_time (self w) = Some t1 ->
  clip_fps (self w) = Some clip ->
  t0 < t1 -> 0 < clip -> 0 < fps (self w) ->
  let rate := fps (self w) in
  let frames := total_frames (self w) in
  let n := Z.to_nat (Qceiling ((t1 - t0) * clip)) in
  let positions :=
    map (arange_item (t0 * rate) (t0 * rate + rate / clip)) (seq 0 n) in
  (1 <= n)%nat /\
  0 < rate / clip /\
  np_arange (t0 * rate) (t1 * rate) (rate / clip) = Ok positions /\
  exists w',
    _get_frame_list w = (Ok tt, w') /\
    frame_list (self w') =
      Some (map (frame_row rate) (map (frame_of frames) positions)).
Proof.
  intros E0 E1 Ec Ht Hc Hr rate frames n positions.
  destruct (frame_numbers_exact rate clip t0 t1 frames Hr Hc) as (A & N & S).
  fold n positions in A, N.
  assert (Hn : (1 <= n)%nat).
  { unfold n. assert (0 < (t1 - t0) * clip) by nra.
    pose proof (ceiling_positive _ H). lia. }
  split; [exact Hn|]. split; [exact S|]. split; [exact A|].
  rewrite (_get_frame_list_run w t0 t1 clip E0 E1 Ec).
  fold rate frames. rewrite N.
  assert (L : length (map (frame_of frames) positions) = n).
  { unfold positions. rewrite !length_map, length_seq. reflexivity. }
  destruct (map (frame_of frames) positions) as [|a l] eqn:M.
  - cbn in L. lia.
  - cbn zeta. eexists. split; [reflexivity|]. reflexivity.
Qed.

End ExactFacts.

(** ** The pipeline as a whole *)

Section Pipeline.
Context {F : Type} `{PyFloat F}.
Variable interp1d : list F -> list F -> result (F -> F).
Variable piexif : Piexif.

(** The frame numbers are the positions of the progression, each clipped into
    the frames and then converted. *)
Lemma frame_numbers_ok (rate clip t0 t1 : F) (frames : Z) (nums : list Z) :
  frame_numbers rate clip t0 t1 frames = Ok nums ->
  exists step positions,
    py_truediv rate clip = Ok step /\
    np_arange (f_mul t0 rate) (f_mul t1 rate) step = Ok positions /\
    nums = map (fun p => np_int64 (np_clip (f_of_int 0)
                                           (f_of_int (frames - 1)) p))
               positions.
Proof.
  unfold frame_numbers.
  destruct (py_truediv rate clip) as [step|]; [|discriminate].
  cbn [rbind].
  destruct (np_arange _ _ step) as [positions|] eqn:A; [|discriminate].
  cbn [rbind]. intros [= <-]. exists step, positions.
  split; [reflexivity|]. split; [exact A|].
  rewrite map_map. reflexivity.
Qed.

(** What a run of [convert] that ends normally has done. *)
Lemma convert_ok (st et ti fa : option F) (w w' : World F) :
  convert interp1d piexif st et ti fa w = (Ok tt, w') ->
  let rate := fps (self w) in
  let t0 := effective_start st in
  let t1 := effective_end (self w) et in
  exists interval clip nums lat lon ele,
    resolve_rate rate ti fa = Ok (interval, clip) /\
    f_leb t1 t0 = false /\
    frame_numbers rate clip t0 t1 (total_frames (self w)) = Ok nums /\
    nums <> [] /\
    fps (self w') = rate /\
    clip_fps (self w') = Some clip /\
    time_interval (self w') = Some interval /\
    frame_list (self w') = Some (map (frame_row rate) nums) /\
    merged_frame_list (self w') =
      Some (map (merged_row lat lon ele) (map (frame_row rate) nums)) /\
    seeks (events w') =
      seeks (events w) ++
      map (fun n => (f_div (f_of_int n) rate, n)) nums.
Proof.
  intros E rate t0 t1. unfold convert in E.
  unfold bind at 1 in E. rewrite _set_params_run in E.
  fold t0 t1 rate in E.
  destruct (f_leb t1 t0) eqn:L; [discriminate|].
  destruct (resolve_rate rate ti fa) as [[interval clip]|] eqn:R;
    [|discriminate].
  cbn [fst snd] in E.
  unfold bind at 1 in E. unfold print at 1, emit at 1 in E.
  cbn [self events] in E.
  unfold bind at 1 in E.
  erewrite (_get_frame_list_run _ t0 t1 clip) in E by reflexivity.
  cbn [self events fps total_frames set_clip_fps set_time_interval
         set_end_time set_start_time] in E.
  fold rate in E.
  destruct (frame_numbers rate clip t0 t1 _) as [nums|] eqn:N;
    [|discriminate].
  destruct nums as [|first rest] eqn:En; [discriminate|]. rewrite <- En in *.
  cbn zeta in E.
  unfold bind at 1 in E. unfold print at 1, emit at 1 in E.
  cbn [self events] in E.
  unfold bind at 1 in E.
  rewrite _merge_gnss2frame_list_run in E.
  cbn [self events gps_data total_duration frame_list set_frame_list
         set_clip_fps set_time_interval set_end_time set_start_time] in E.
  destruct (iloc_last (gps_data (self w))) as [last|]; [|discriminate].
  cbn zeta in E.
  destruct (interp1d _ (map gps_lat _)) as [lat|]; [|discriminate].
  destruct (interp1d _ (map gps_lon _)) as [lon|]; [|discriminate].
  destruct (interp1d _ (map gps_ele _)) as [ele|]; [|discriminate].
  cbn [frame_list set_ele_interp set_lon_interp set_lat_interp
         set_frame_list] in E.
  unfold bind at 1 in E. unfold print at 1, emit at 1 in E.
  cbn [self events] in E.
  unfold _extract_images, bind at 1, attr in E.
  cbn [self events merged_frame_list set_merged_frame_list] in E.
  apply for_each_extract_ok in E as (Es & Ek & _).
  cbn [self events] in Es, Ek.
  exists interval, clip, nums, lat, lon, ele.
  rewrite Es. cbn.
  repeat (split; [first [reflexivity | assumption | congruence]|]).
  rewrite Ek. rewrite !seeks_app.
  unfold params_report, frames_report, sync_warning.
  destruct (mismatch _ _); cbn [seeks app]; rewrite ?app_nil_r;
    rewrite !map_map; reflexivity.
Qed.

End Pipeline.

(** ** Properties of the geotag encoder *)

(** The double that Python reads from [35.6895]: [0x1.1d84189374bc7p+5]. *)
Example double_35_6895 :
  B64.decimal 356895 4 = S754_finite false 5022850590657479 (-47).
Proof. vm_compute. reflexivity. Qed.

(** C8.  For every coordinate [v] with magnitude [m = |v|], the encoder gives
    degrees [trunc m], minutes [trunc ((m - deg) * 60)] and seconds
    [(trunc ((((m - deg) * 60) - min) * 60 * 100000), 100000)], the
    truncations being toward zero, and the hemisphere written beside them is
    [N] when [lat >= 0], else [S], and [E] when [lon >= 0], else [W].  On
    binary64, [35.6895] gives degrees 35, minutes 41, seconds
    [(2220000, 100000)] and hemisphere [N]. *)
Theorem latlon_encoding :
  (forall (F : Type) (N : PyFloat F) (v : F) (r : list (Z * Z)),
      (dms_defined v -> latlon_to_rational v = Ok (dms v)) /\
      (latlon_to_rational v = Ok r -> r = dms v)) /\
  (forall (F : Type) (N : PyFloat F) (lat lon ele : F) (exif exif' : ExifDict),
      tag_exif lat lon ele exif = Ok exif' ->
      gps_field exif' GPSIFD.GPSLatitude (ExifRationals (dms lat)) /\
      gps_field exif' GPSIFD.GPSLatitudeRef (ExifAscii (lat_hemisphere lat)) /\
      gps_field exif' GPSIFD.GPSLongitude (ExifRationals (dms lon)) /\
      gps_field exif' GPSIFD.GPSLongitudeRef
                (ExifAscii (lon_hemisphere lon))) /\
  (forall (s : bool) (m : positive) (e : Z),
      f_trunc (S754_finite s m e : B64.float) =
      Z.quot (cond_Zopp s (Zpos m) * 2 ^ Z.max e 0) (2 ^ Z.max (- e) 0)) /\
  latlon_to_rational (B64.decimal 356895 4) =
    Ok [(35, 1); (41, 1); (2220000, 100000)] /\
  lat_hemisphere (B64.decimal 356895 4) = "N".
Proof.
  split; [|split; [|split; [|split]]].
  - intros F N v r. split.
    + apply latlon_to_rational_dms.
    + intros E. apply latlon_to_rational_ok in E. tauto.
  - intros F N lat lon ele exif exif' E.
    apply tag_exif_ok in E. tauto.
  - apply B64Facts.trunc_toward_zero.
  - vm_compute. reflexivity.
  - vm_compute. reflexivity.
Qed.

Lemma latlon_encoding_witness :
  latlon_to_rational (B64.decimal 356895 4) = Ok (dms (B64.decimal 356895 4)).
Proof.
  apply (proj1 (proj1 latlon_encoding B64.float B64.b64_float (B64.decimal 356895 4) [])).
  vm_compute. repeat split.
Defined.

(** C9.  For every elevation [ele], the encoder gives the rational
    [(trunc (ele * 1000), 1000)], truncated toward zero; on binary64,
    [123.456] gives [(123456, 1000)]. *)
Theorem altitude_encoding :
  (forall (F : Type) (N : PyFloat F) (ele : F) (r : Z * Z),
      (f_class (f_mul ele (f_of_int 1000)) = Finite ->
       ele_to_rational ele = Ok (f_trunc (f_mul ele (f_of_int 1000)), 1000)) /\
      (ele_to_rational ele = Ok r ->
       r = (f_trunc (f_mul ele (f_of_int 1000)), 1000))) /\
  (forall (s : bool) (m : positive) (e : Z),
      f_trunc (S754_finite s m e : B64.float) =
      Z.quot (cond_Zopp s (Zpos m) * 2 ^ Z.max e 0) (2 ^ Z.max (- e) 0)) /\
  ele_to_rational (B64.decimal 123456 3) = Ok (123456, 1000).
Proof.
  split; [|split].
  - intros F N ele r. split.
    + apply ele_to_rational_altitude.
    + intros E. apply ele_to_rational_ok in E. tauto.
  - apply B64Facts.trunc_toward_zero.
  - vm_compute. reflexivity.
Qed.

Lemma altitude_encoding_witness :
  ele_to_rational (B64.decimal 123456 3) =
  Ok (f_trunc (f_mul (B64.decimal 123456 3) (f_of_int 1000)), 1000).
Proof.
  apply (proj1 (proj1 altitude_encoding B64.float B64.b64_float (B64.decimal 123456 3)
                      (0, 0))).
  vm_compute. reflexivity.
Defined.




(** ** Properties of the configuration *)

(** C2, as stated, fails when both rate parameters are given: with
    [time_interval = 1] and [fps = 2] on a 30 fps video, the rate of the
    design document is [fps = 2], below the video's, but the method stores
    the clip rate [1 / time_interval = 1]. *)
Lemma both_rates_given :
  let out := _set_params None None (Some (B64.of_int 1)) (Some (B64.of_int 2))
                         Sample.world in
  fst out = Ok tt /\
  designed_rate (Some (B64.of_int 1)) (Some (B64.of_int 2))
    = Ok (B64.of_int 2) /\
  clamp_rate (B64.of_int 30) (B64.of_int 2) = B64.of_int 2 /\
  clip_fps (self (snd out)) = Some (B64.of_int 1) /\
  clip_fps (self (snd out)) <> Some (B64.of_int 2).
Proof. vm_compute. repeat split; discriminate. Qed.

(** C2, amended.  The clip rate asked for is [1 / time_interval] when
    [time_interval] is given, else [fps] (so it is the rate of the design
    document whenever at most one of the two is given); the clip rate stored
    is that rate, or the video's own rate exactly when the rate asked for
    exceeds it, and then the stored [time_interval] is [1 / clip_fps]. *)
Theorem clip_rate_resolution (F : Type) (N : PyFloat F)
    (st et ti fa : option F) (w w' : World F) :
  _set_params st et ti fa w = (Ok tt, w') ->
  let rate := fps (self w) in
  exists r interval,
    requested_rate ti fa = Ok r /\
    (ti = None \/ fa = None -> designed_rate ti fa = Ok r) /\
    clip_fps (self w') = Some (clamp_rate rate r) /\
    time_interval (self w') = Some interval /\
    (py_gt r rate = true ->
     clip_fps (self w') = Some rate /\
     py_truediv (f_of_int 1) rate = Ok interval) /\
    (py_gt r rate = false -> forall t, ti = Some t -> interval = t) /\
    (ti = None -> py_truediv (f_of_int 1) (clamp_rate rate r) = Ok interval).
Proof.
  intros E rate. rewrite _set_params_run in E. fold rate in E.
  destruct (f_leb _ _); [discriminate|].
  destruct (resolve_rate rate ti fa) as [[i c]|] eqn:R; [|discriminate].
  injection E as <-. cbn [self fst snd].
  apply resolve_rate_ok in R as (r & Er & -> & A & B).
  exists r, i. split; [exact Er|]. split.
  { intros [->| ->].
    - destruct fa; [exact Er | discriminate Er].
    - destruct ti; exact Er. }
  split; [reflexivity|]. split; [reflexivity|].
  split; [|split].
  - intros G. unfold clamp_rate in *. rewrite G in *. split; auto.
  - exact B.
  - intros T. apply A. auto.
Qed.

Lemma clip_rate_resolution_witness :
  clip_fps (self (snd (_set_params None None None (Some (B64.of_int 1000))
                                   Sample.world)))
  = Some (B64.of_int 30).
Proof.
  assert (E : _set_params None None None (Some (B64.of_int 1000)) Sample.world
              = (Ok tt, snd (_set_params None None None
                                         (Some (B64.of_int 1000))
                                         Sample.world)))
    by (vm_compute; reflexivity).
  destruct (clip_rate_resolution B64.float B64.b64_float _ _ _ _ _ _ E)
    as (r & interval & Er & _ & Ec & _).
  injection Er as <-. rewrite Ec. vm_compute. reflexivity.
Defined.

(** C5, as stated, fails: the method checks neither that exactly one rate
    parameter is given nor that the rate is positive.  With both given, and
    with the single rate [fps = -5], it returns normally. *)
Lemma unchecked_rate_parameters :
  fst (_set_params None None (Some (B64.of_int 1)) (Some (B64.of_int 2))
                   Sample.world) = Ok tt /\
  fst (_set_params None None None (Some (B64.of_int (-5))) Sample.world)
    = Ok tt /\
  clip_fps (self (snd (_set_params None None None (Some (B64.of_int (-5)))
                                   Sample.world)))
    = Some (B64.of_int (-5)) /\
  f_ltb (B64.of_int (-5)) (f_of_int 0) = true.
Proof. vm_compute. repeat split. Qed.

(** C5, amended.  [_set_params] raises its [ValueError] exactly when
    [end_time <= start_time] (whatever the rate parameters are) or when
    neither [time_interval] nor [fps] is given.  Otherwise it returns
    normally, using [time_interval] when both are given and whatever the sign
    of the rate, unless a division by zero stops it; and it fails before any
    sampling work: nothing is printed and no frame list is built. *)
Theorem configuration_errors (F : Type) (N : PyFloat F)
    (st et ti fa : option F) (w : World F) :
  let t0 := effective_start st in
  let t1 := effective_end (self w) et in
  let out := _set_params st et ti fa w in
  ((exists msg, fst out = Raise (ValueError msg)) <->
   f_leb t1 t0 = true \/ (ti = None /\ fa = None)) /\
  (f_leb t1 t0 = true ->
   fst out = Raise (ValueError "end_time must be greater than start_time.")) /\
  (fst out = Ok tt \/ (exists msg, fst out = Raise (ValueError msg)) \/
   fst out = Raise ZeroDivisionError) /\
  (f_leb t1 t0 = false ->
   (forall t, ti = Some t -> f_is_zero t = false ->
              f_is_zero (fps (self w)) = false -> fst out = Ok tt) /\
   (forall f, ti = None -> fa = Some f ->
              f_is_zero (clamp_rate (fps (self w)) f) = false ->
              fst out = Ok tt)) /\
  (fst out <> Ok tt ->
   events (snd out) = events w /\
   frame_list (self (snd out)) = frame_list (self w) /\
   merged_frame_list (self (snd out)) = merged_frame_list (self w)).
Proof.
  intros t0 t1 out. subst out. rewrite _set_params_run. fold t0 t1.
  destruct (f_leb t1 t0) eqn:L.
  - cbn [fst snd self events].
    split; [split; [auto | eauto]|].
    split; [reflexivity|]. split; [eauto|]. split; [discriminate|].
    intros _. repeat split.
  - destruct (resolve_rate (fps (self w)) ti fa) as [[i c]|e] eqn:R;
      cbn [fst snd self events].
    + apply resolve_rate_ok in R as (r & Er & _).
      split.
      { split.
        - intros (msg & ?). discriminate.
        - intros [?|[-> ->]]; [discriminate | discriminate Er]. }
      split; [discriminate|]. split; [auto|].
      split; [intros _; split; reflexivity|].
      intros X. contradiction X. reflexivity.
    + pose proof (resolve_rate_error _ _ _ _ R) as [(-> & -> & ->) | (G & ->)].
      * split; [split; [auto | eauto]|].
        split; [discriminate|]. split; [eauto|].
        split; [|intros _; repeat split].
        intros _. split; [discriminate|discriminate].
      * split.
        { split.
          - intros (msg & ?). discriminate.
          - intros [?|[-> ->]]; [discriminate | destruct G; contradiction]. }
        split; [discriminate|]. split; [auto|].
        split; [|intros _; repeat split].
        intros _. split.
        -- intros t -> Zt Zr. unfold resolve_rate, py_truediv in R.
           rewrite Zt in R. cbn [rbind] in R.
           destruct (py_gt _ _); [|discriminate].
           rewrite Zr in R. discriminate.
        -- intros f -> -> Zc. unfold resolve_rate, py_truediv in R.
           unfold clamp_rate in Zc. cbn zeta in R. rewrite Zc in R.
           discriminate.
Qed.

Lemma configuration_errors_witness :
  fst (_set_params None None None (Some (B64.of_int 1000)) Sample.world)
    = Ok tt.
Proof.
  assert (L : f_leb (effective_end (self Sample.world) None)
                    (effective_start None) = false)
    by (vm_compute; reflexivity).
  destruct (configuration_errors B64.float B64.b64_float None None None
              (Some (B64.of_int 1000)) Sample.world)
    as (_ & _ & _ & S & _).
  apply (proj2 (S L) (B64.of_int 1000)); vm_compute; reflexivity.
Defined.

(** ** Properties of the sampler *)

Import ExactFacts.

(** The sampler on binary64: 2 s of a 30 fps video at 3 samples per second. *)
Example sampler_binary64 :
  frame_numbers (B64.of_int 30) (B64.of_int 3) (B64.of_int 0) (B64.of_int 2)
                300
  = Ok [0; 10; 20; 30; 40; 50].
Proof. vm_compute. reflexivity. Qed.

(** Rounding shows in the count: 1 s of a 30000/1001 fps video at 7 samples
    per second gives 8 samples on binary64, the quotient of the frame span by
    the step being just above 7, where exact arithmetic gives 7. *)
Example sampler_binary64_rounding :
  let ntsc := f_div (B64.of_int 30000) (B64.of_int 1001) in
  frame_numbers ntsc (B64.of_int 7) (B64.of_int 0) (B64.of_int 1) 300
  = Ok [0; 4; 8; 12; 17; 21; 25; 29] /\
  frame_numbers (30000 # 1001)%Q (7 # 1)%Q (0 # 1)%Q (1 # 1)%Q 300
  = Ok [0; 4; 8; 12; 17; 21; 25].
Proof. vm_compute. split; reflexivity. Qed.





(** C1.  In a run of [convert] that ends normally, every record's time stamp
    is the time delta of [frame_num / fps], computed from the frame number
    that clipping and truncation gave (not from the position before them),
    and ffmpeg is asked to seek, record by record, at that same
    [frame_num / fps]. *)
Theorem elapsed_time_from_frame_index (F : Type) (N : PyFloat F)
    (interp1d : list F -> list F -> result (F -> F))
    (piexif : Piexif)
    (st et ti fa : option F) (w w' : World F) :
  convert interp1d piexif st et ti fa w = (Ok tt, w') ->
  let rate := fps (self w) in
  exists clip step positions rows,
    clip_fps (self w') = Some clip /\
    py_truediv rate clip = Ok step /\
    np_arange (f_mul (effective_start st) rate)
              (f_mul (effective_end (self w) et) rate) step = Ok positions /\
    merged_frame_list (self w') = Some rows /\
    map m_frame_num rows =
      map (fun p => np_int64 (np_clip (f_of_int 0)
                                      (f_of_int (total_frames (self w) - 1)) p))
          positions /\
    Forall (fun r => m_time_stamp r =
                     to_timedelta (f_div (f_of_int (m_frame_num r)) rate))
           rows /\
    seeks (events w') =
      seeks (events w) ++
      map (fun r => (f_div (f_of_int (m_frame_num r)) rate, m_frame_num r))
          rows.
Proof.
  intros E rate. apply convert_ok in E. cbn zeta in E. fold rate in E.
  destruct E as (interval & clip & nums & lat & lon & ele & _ & _ & En & _ &
                 _ & Ec & _ & _ & Em & Ek).
  apply frame_numbers_ok in En as (step & positions & Es & Ea & ->).
  exists clip, step, positions. eexists.
  split; [exact Ec|]. split; [exact Es|]. split; [exact Ea|].
  split; [exact Em|]. split; [|split].
  - rewrite !map_map. reflexivity.
  - apply List.Forall_forall. intros r Hr.
    apply List.in_map_iff in Hr as (fr & <- & Hfr).
    apply List.in_map_iff in Hfr as (n & <- & _). reflexivity.
  - rewrite Ek, !map_map. reflexivity.
Qed.

Lemma elapsed_time_from_frame_index_witness :
  fst Sample.outcome = Ok tt /\
  seeks (events (snd Sample.outcome)) =
    [(B64.of_int 0, 0); (B64.of_int 1, 30)] /\
  exists rows,
    merged_frame_list (self (snd Sample.outcome)) = Some rows /\
    Forall (fun r => m_time_stamp r =
                     to_timedelta (f_div (f_of_int (m_frame_num r))
                                         (B64.of_int 30)))
           rows.
Proof.
  assert (E : convert Sample.flat_interp1d Sample.fresh_exif None
                (Some (B64.of_int 2)) None (Some (B64.of_int 1)) Sample.world
              = (Ok tt, snd Sample.outcome))
    by (vm_compute; reflexivity).
  destruct (elapsed_time_from_frame_index B64.float B64.b64_float
              _ _ _ _ _ _ _ _ E)
    as (clip & step & positions & rows & _ & _ & _ & Em & _ & Ht & _).
  split; [vm_compute; reflexivity|]. split; [vm_compute; reflexivity|].
  exists rows. split; [exact Em | exact Ht].
Defined.

(** ** Properties of the merge step *)

Section MergeFacts.
Context {F : Type} `{PyFloat F}.

Lemma build_interpolant_fails (spline : list F -> list F -> F -> F)
    (xs ys : list F) :
  (length xs < 3)%nat \/ strictly_increasing xs = false ->
  build_interpolant spline xs ys = Raise InterpolationError.
Proof.
  unfold build_interpolant. intros [L|S].
  - apply Nat.ltb_lt in L. rewrite L. reflexivity.
  - rewrite S. destruct (length xs <? 3)%nat; reflexivity.
Qed.

Lemma iloc_last_nonempty {A : Type} (l : list A) :
  l <> [] -> exists a, iloc_last l = Ok a.
Proof.
  destruct l as [|a l]; [congruence|]. intros _.
  rewrite iloc_last_cons. eauto.
Qed.

Lemma seeks_sync_warning (b : bool) :
  seeks (if b then sync_warning else [] : list (Event F)) = [].
Proof. destruct b; reflexivity. Qed.

Lemma writes_sync_warning (b : bool) :
  writes (if b then sync_warning else [] : list (Event F)) = [].
Proof. destruct b; reflexivity. Qed.

(** A merge step whose interpolant cannot be built raises, stores nothing and
    touches no image. *)
Lemma merge_fails (spline : list F -> list F -> F -> F) (w : World F) :
  gps_data (self w) <> [] ->
  (length (gps_data (self w)) < 3)%nat \/
  strictly_increasing (track_seconds (gps_data (self w))) = false ->
  let out := _merge_gnss2frame_list (build_interpolant spline) w in
  fst out = Raise InterpolationError /\
  self (snd out) = self w /\
  seeks (events (snd out)) = seeks (events w) /\
  writes (events (snd out)) = writes (events w).
Proof.
  intros Hne Hbad out. subst out.
  rewrite _merge_gnss2frame_list_run. cbn zeta.
  destruct (iloc_last_nonempty _ Hne) as [last ->].
  rewrite build_interpolant_fails.
  - cbn [fst snd self events].
    rewrite seeks_app, writes_app, seeks_sync_warning, writes_sync_warning,
      !app_nil_r.
    auto.
  - unfold track_seconds. rewrite length_map. exact Hbad.
Qed.

End MergeFacts.



(** C7.  When the video duration and the last elapsed time of the track
    differ by more than 1 second, the merge step prints the synchronization
    warning and nothing else changes: its outcome and the merged records are
    those of a run without the mismatch, and when the three interpolants can
    be built the step ends normally with one merged record for every sampled
    frame. *)
Theorem duration_mismatch_only_warns (F : Type) (N : PyFloat F)
    (interp1d : list F -> list F -> result (F -> F))
    (o : Object F) (evs : list (Event F)) (d1 d2 : F) (last : GpsRow F) :
  iloc_last (gps_data o) = Ok last ->
  mismatch d1 last = true ->
  mismatch d2 last = false ->
  let out1 := _merge_gnss2frame_list interp1d
                {| self := with_duration d1 o; events := evs |} in
  let out2 := _merge_gnss2frame_list interp1d
                {| self := with_duration d2 o; events := evs |} in
  fst out1 = fst out2 /\
  events (snd out1) = evs ++ sync_warning /\
  events (snd out2) = evs /\
  merged_frame_list (self (snd out1)) = merged_frame_list (self (snd out2)) /\
  (forall frames lat lon ele,
      frame_list o = Some frames ->
      interp1d (track_seconds (gps_data o)) (map gps_lat (gps_data o))
        = Ok lat ->
      interp1d (track_seconds (gps_data o)) (map gps_lon (gps_data o))
        = Ok lon ->
      interp1d (track_seconds (gps_data o)) (map gps_ele (gps_data o))
        = Ok ele ->
      fst out1 = Ok tt /\
      merged_frame_list (self (snd out1))
        = Some (map (merged_row lat lon ele) frames) /\
      map m_frame_num (map (merged_row lat lon ele) frames)
        = map frame_num frames).
Proof.
  intros L M1 M2 out1 out2. subst out1 out2.
  rewrite !_merge_gnss2frame_list_run.
  cbn [self events with_duration gps_data total_duration]. cbn zeta.
  rewrite L, M1, M2, app_nil_r.
  destruct (interp1d _ (map gps_lat _)) as [lat|e1].
  2:{ cbn [fst snd self events]. repeat split; try reflexivity.
      all: discriminate. }
  destruct (interp1d _ (map gps_lon _)) as [lon|e2].
  2:{ cbn [fst snd self events]. repeat split; try reflexivity.
      all: discriminate. }
  destruct (interp1d _ (map gps_ele _)) as [ele|e3].
  2:{ cbn [fst snd self events]. repeat split; try reflexivity.
      all: discriminate. }
  cbn [frame_list set_ele_interp set_lon_interp set_lat_interp with_duration].
  destruct (frame_list o) as [frames|].
  - cbn [fst snd self events merged_frame_list set_merged_frame_list].
    split; [reflexivity|]. split; [reflexivity|]. split; [reflexivity|].
    split; [reflexivity|].
    intros frames' lat' lon' ele' [= <-] [= <-] [= <-] [= <-].
    split; [reflexivity|]. split; [reflexivity|].
    rewrite map_map. reflexivity.
  - cbn [fst snd self events]. repeat split; try reflexivity.
    all: discriminate.
Qed.

Lemma duration_mismatch_only_warns_witness :
  events (snd (_merge_gnss2frame_list Sample.flat_interp1d
                 {| self := with_duration (B64.decimal 115 1)
                                          Sample.long_video;
                    events := [] |}))
  = sync_warning.
Proof.
  apply (duration_mismatch_only_warns B64.float B64.b64_float
           Sample.flat_interp1d Sample.long_video []
           (B64.decimal 115 1) (B64.of_int 10)
           (Sample.gps_fix 10 (B64.decimal 356897 4) (B64.decimal 1396919 4)
                           (B64.decimal 42 0)));
    vm_compute; reflexivity.
Defined.

(** ** Properties of the constructor *)

Section ConstructorFacts.
Context {F : Type} `{PyFloat F}.

Lemma collect_with (r : result Z) (f : Z -> GpxPoint F -> GpsRow F)
    (l : list (GpxPoint F)) :
  collect (fun p => do t0 <- r; Ok (f t0 p)) l =
  match l, r with
  | [], _ => Ok []
  | _ :: _, Raise e => Raise e
  | _ :: _, Ok t0 => Ok (map (f t0) l)
  end.
Proof.
  induction l as [|p l IH]; [reflexivity|].
  cbn [collect]. rewrite IH. destruct r as [t0|e], l; reflexivity.
Qed.

Lemma iloc_first_error {A : Type} (l : list A) (e : Error) :
  iloc_first l = Raise e -> l = [] /\ e = IndexError.
Proof. destruct l; intros E; inversion E; auto. Qed.

Lemma first_time_ok (gpx : list (list (list (GpxPoint F)))) (t0 : Z) :
  first_time gpx = Ok t0 ->
  exists p rest, gpx_points gpx = p :: rest /\ pt_time p = t0.
Proof.
  unfold first_time, gpx_points.
  destruct gpx as [|[|[|p s] t] g]; try discriminate.
  cbn. intros [= <-]. eauto.
Qed.

Lemma first_time_error (gpx : list (list (list (GpxPoint F)))) (e : Error) :
  first_time gpx = Raise e -> e = IndexError.
Proof.
  unfold first_time.
  destruct gpx as [|[|[|p s] t] g]; cbn; intros E; inversion E; auto.
Qed.

Lemma load_gpx_result (gpx : list (list (list (GpxPoint F)))) :
  fst (_load_gpx gpx) =
  match first_time gpx with
  | Ok t0 => Ok (map (gps_row t0) (gpx_points gpx))
  | Raise _ => Raise IndexError
  end.
Proof.
  unfold _load_gpx. rewrite collect_with.
  destruct (first_time gpx) as [t0|e] eqn:T.
  - destruct (first_time_ok gpx t0 T) as (p & rest & Ep & _).
    rewrite Ep. cbn [map]. rewrite iloc_last_cons. reflexivity.
  - apply first_time_error in T as ->.
    destruct (gpx_points gpx); reflexivity.
Qed.

End ConstructorFacts.

(** X1.  [_load_mov], on a probe whose fields all convert, fails exactly on a
    zero: a frame rate with a zero denominator raises [ZeroDivisionError]
    before anything is printed, and a zero duration raises it in the middle
    of the report, at the line that prints frames over duration; otherwise
    the method returns the frame count, the duration and the quotient of the
    two sides of the frame rate. *)
Theorem load_mov_outcome (F : Type) (N : PyFloat F) (p : Probe F)
    (frames created : Z) (total num den : F) :
  nb_frames p = Ok frames ->
  duration p = Ok total ->
  rate_num p = Ok num ->
  rate_den p = Ok den ->
  creation_time p = Ok created ->
  (f_is_zero den = true -> _load_mov p = (Raise ZeroDivisionError, [])) /\
  (f_is_zero den = false -> f_is_zero total = true ->
   fst (_load_mov p) = Raise ZeroDivisionError /\
   snd (_load_mov p) =
     [ Print "Loaded mov file: " [];
       Print " total frames: " [VInt frames];
       Print " total duration: " [VFloat total] ]) /\
  (f_is_zero den = false -> f_is_zero total = false ->
   fst (_load_mov p) = Ok (frames, total, f_div num den)).
Proof.
  intros E1 E2 E3 E4 E5. unfold _load_mov, py_truediv.
  rewrite E1, E2, E3, E4, E5. cbn [rbind].
  destruct (f_is_zero den); cbn [rbind].
  - split; [reflexivity|]. split; discriminate.
  - split; [discriminate|].
    destruct (f_is_zero total); split; try discriminate; intros _ _.
    + split; reflexivity.
    + reflexivity.
Qed.

Lemma load_mov_outcome_witness :
  fst (_load_mov Footage.still_probe) = Raise ZeroDivisionError.
Proof.
  apply (load_mov_outcome B64.float B64.b64_float Footage.still_probe
           300 0 (B64.of_int 0) (B64.of_int 30000) (B64.of_int 1001)
           eq_refl eq_refl eq_refl eq_refl eq_refl);
    reflexivity.
Defined.


(** X3.  An object that [__init__] returns has a track with at least one
    fix, the first fix being at time zero, a duration that is not zero, a
    frame rate that is the quotient of the probe's two numbers by a divisor
    that is not zero, and none of the attributes that [convert] assigns; the
    directory is made exactly when it did not exist. *)
Theorem constructed_object (F : Type) (N : PyFloat F) (dir_exists : bool)
    (p : Probe F) (gpx : list (list (list (GpxPoint F))))
    (o : Object F) (evs : list (SetupEvent F)) :
  __init__ dir_exists p gpx = (Ok o, evs) ->
  (exists first rest last,
      gps_data o = first :: rest /\ rel_time first = Td 0 /\
      iloc_last (gps_data o) = Ok last) /\
  length (gps_data o) = length (gpx_points gpx) /\
  f_is_zero (total_duration o) = false /\
  nb_frames p = Ok (total_frames o) /\
  duration p = Ok (total_duration o) /\
  (exists num den,
      rate_num p = Ok num /\ rate_den p = Ok den /\
      f_is_zero den = false /\ fps o = f_div num den) /\
  start_time o = None /\ end_time o = None /\ clip_fps o = None /\
  frame_list o = None /\ merged_frame_list o = None /\
  (List.In MakeDir evs <-> dir_exists = false).
Proof.
  unfold __init__. intros E.
  destruct (_load_mov p) as [[[[frames total] rate]|e] evs1] eqn:M;
    [|discriminate].
  destruct (_load_gpx gpx) as [[data|e] evs2] eqn:G; [|discriminate].
  injection E as <- <-.
  cbn [gps_data total_duration total_frames fps start_time end_time clip_fps
         frame_list merged_frame_list init].
  (* the video *)
  unfold _load_mov in M.
  destruct (nb_frames p) as [n|]; [|discriminate]. cbn [rbind] in M.
  destruct (duration p) as [d|]; [|discriminate]. cbn [rbind] in M.
  destruct (rate_num p) as [a|]; [|discriminate]. cbn [rbind] in M.
  destruct (rate_den p) as [b|]; [|discriminate]. cbn [rbind] in M.
  unfold py_truediv in M.
  destruct (f_is_zero b) eqn:Zb; [discriminate|]. cbn [rbind] in M.
  destruct (creation_time p) as [c|]; [|discriminate]. cbn [rbind] in M.
  destruct (f_is_zero d) eqn:Zd; [discriminate|].
  injection M as <- <- <- <-.
  (* the track *)
  pose proof (load_gpx_result gpx) as L. rewrite G in L. cbn [fst] in L.
  destruct (first_time gpx) as [t0|e] eqn:T; [|discriminate L].
  injection L as ->.
  destruct (first_time_ok gpx t0 T) as (q & rest & Ep & Et).
  assert (Er : rel_time (gps_row t0 q) = Td 0)
    by (cbn [rel_time gps_row]; f_equal; lia).
  split.
  { rewrite Ep. cbn [map]. exists (gps_row t0 q), (map (gps_row t0) rest).
    eexists. split; [reflexivity|]. split; [exact Er|].
    apply iloc_last_cons. }
  split; [apply length_map|].
  split; [exact Zd|]. split; [reflexivity|]. split; [reflexivity|].
  split; [exists a, b; auto|].
  repeat (split; [reflexivity|]).
  unfold _create_seq_image_dir.
  assert (NoMk : forall l : list (Event F), ~ List.In MakeDir (map Out l)).
  { intros l I. apply List.in_map_iff in I as (x & X & _). discriminate X. }
  destruct dir_exists; cbn [app List.In]; split.
  - intros [X|[X|I]]; try discriminate X.
    rewrite !List.in_app_iff in I. cbn [List.In] in I.
    destruct I as [I|[I|[X|[]]]]; try discriminate X;
      exfalso; apply (NoMk _ I).
  - discriminate.
  - reflexivity.
  - intros _. auto.
Qed.

Lemma constructed_object_witness :
  match __init__ false Footage.probe Footage.gpx with
  | (Ok o, evs) =>
      length (gps_data o) = 3%nat /\
      f_is_zero (total_duration o) = false /\
      List.In MakeDir evs
  | (Raise _, _) => False
  end.
Proof.
  destruct (__init__ false Footage.probe Footage.gpx) as [[o|e] evs] eqn:E.
  - pose proof (constructed_object B64.float B64.b64_float false
                  Footage.probe Footage.gpx o evs E) as C.
    split; [|split].
    + apply C.
    + apply C.
    + apply C. reflexivity.
  - vm_compute in E. discriminate E.
Defined.

(** ** Properties of the image file names *)

Lemma append_length (a b : string) :
  String.length (String.append a b) = (String.length a + String.length b)%nat.
Proof.
  induction a as [|c a IH]; [reflexivity|].
  change (S (String.length (String.append a b))
          = S (String.length a + String.length b)).
  f_equal. exact IH.
Qed.

Lemma append_cancel_l (s a b : string) :
  String.append s a = String.append s b -> a = b.
Proof. induction s as [|c s IH]; cbn; [auto | intros [= E]; auto]. Qed.

Lemma append_cancel_r (s a b : string) :
  String.append a s = String.append b s -> a = b.
Proof.
  assert (L : forall c x, String.length (String c (String.append x s))
                          = S (String.length x + String.length s)).
  { intros c x. rewrite <- append_length. reflexivity. }
  revert b. induction a as [|c a IH]; intros [|d b] E.
  - reflexivity.
  - change (s = String d (String.append b s)) in E.
    apply (f_equal String.length) in E. rewrite L in E. lia.
  - change (String c (String.append a s) = s) in E.
    apply (f_equal String.length) in E. rewrite L in E. lia.
  - change (String c (String.append a s) = String d (String.append b s)) in E.
    injection E as -> E. f_equal. apply IH, E.
Qed.

Lemma string_of_uint_inj (d d' : Decimal.uint) :
  NilEmpty.string_of_uint d = NilEmpty.string_of_uint d' -> d = d'.
Proof.
  intros E. apply (f_equal NilEmpty.uint_of_string) in E.
  rewrite !NilEmpty.usu in E. injection E as ->. reflexivity.
Qed.

Lemma string_of_uint_no_sign (d : Decimal.uint) (s : string) :
  NilEmpty.string_of_uint d <> String "-"%char s.
Proof. destruct d; cbn; discriminate. Qed.

Lemma of_uint_padded (k : nat) (d : Decimal.uint) :
  N.of_uint (Nat.iter k Decimal.D0 d) = N.of_uint d.
Proof. induction k as [|k IH]; [reflexivity | exact IH]. Qed.

Lemma padded_digits_inj (k k' : nat) (n n' : N) :
  Nat.iter k Decimal.D0 (N.to_uint n) = Nat.iter k' Decimal.D0 (N.to_uint n') ->
  n = n'.
Proof.
  intros E. apply (f_equal N.of_uint) in E.
  rewrite !of_uint_padded, !DecimalN.Unsigned.of_to in E. exact E.
Qed.

Lemma format_06d_inj (a b : Z) : format_06d a = format_06d b -> a = b.
Proof.
  unfold format_06d.
  destruct (Z.ltb_spec a 0) as [Ha|Ha], (Z.ltb_spec b 0) as [Hb|Hb]; intros E.
  - injection E as E. apply string_of_uint_inj, padded_digits_inj in E. lia.
  - symmetry in E. apply string_of_uint_no_sign in E. contradiction.
  - apply string_of_uint_no_sign in E. contradiction.
  - apply string_of_uint_inj, padded_digits_inj in E. lia.
Qed.

(** X4.  Two frames get the same image file name exactly when they have the
    same frame number: distinct frames never share a file, and a frame number
    that the sampler emits twice is written twice to one file. *)
Theorem img_file_name_same_frame (stem : string) (a b : Z) :
  img_file_name stem a = img_file_name stem b <-> a = b.
Proof.
  split; [|intros ->; reflexivity].
  unfold img_file_name. intros E.
  apply append_cancel_l, append_cancel_l, append_cancel_r in E.
  apply format_06d_inj, E.
Qed.

(** ** Further properties of the tagging loop *)

Section TaggingFacts.
Context {F : Type} `{PyFloat F}.
Variable piexif : Piexif.

Lemma set_gps_value (tag : Z) (v : ExifValue) (exif exif' : ExifDict) :
  set_gps tag v exif = Ok exif' <->
  exists ifd, exif !! "GPS" = Some ifd /\
              exif' = <["GPS" := <[tag := v]> ifd]> exif.
Proof.
  unfold set_gps. destruct (exif !! "GPS") as [ifd|]; split.
  - intros [= <-]. eauto.
  - intros (ifd' & [= <-] & ->). reflexivity.
  - discriminate.
  - intros (ifd' & E & _). discriminate E.
Qed.

Lemma set_gps_insert (tag : Z) (v : ExifValue) (ifd : gmap Z ExifValue)
    (exif : ExifDict) :
  set_gps tag v (<["GPS" := ifd]> exif)
  = Ok (<["GPS" := <[tag := v]> ifd]> exif).
Proof.
  unfold set_gps. rewrite lookup_insert_eq, insert_insert_eq. reflexivity.
Qed.

Lemma tag_exif_value (lat lon ele : F) (exif exif' : ExifDict) :
  tag_exif lat lon ele exif = Ok exif' <->
  dms_defined lat /\ dms_defined lon /\
  f_class (f_mul ele (f_of_int 1000)) = Finite /\
  exists ifd, exif !! "GPS" = Some ifd /\
              exif' = <["GPS" := geotag lat lon ele ifd]> exif.
Proof.
  unfold tag_exif, geotag. split.
  - intros E.
    destruct (latlon_to_rational lat) as [v1|] eqn:E1; [|discriminate].
    apply latlon_to_rational_ok in E1 as [D1 ->]. cbn [rbind] in E.
    destruct (set_gps _ _ exif) as [x1|] eqn:S1; [|discriminate].
    apply set_gps_value in S1 as (ifd & G & ->). cbn [rbind] in E.
    rewrite set_gps_insert in E. cbn [rbind] in E.
    destruct (latlon_to_rational lon) as [v2|] eqn:E2; [|discriminate].
    apply latlon_to_rational_ok in E2 as [D2 ->]. cbn [rbind] in E.
    rewrite !set_gps_insert in E. cbn [rbind] in E.
    rewrite !set_gps_insert in E. cbn [rbind] in E.
    destruct (ele_to_rational ele) as [v3|] eqn:E3; [|discriminate].
    apply ele_to_rational_ok in E3 as [D3 ->]. cbn [rbind] in E.
    rewrite set_gps_insert in E. injection E as <-.
    split; [exact D1|]. split; [exact D2|]. split; [exact D3|].
    exists ifd. split; [exact G | reflexivity].
  - intros (D1 & D2 & D3 & ifd & G & ->).
    rewrite (latlon_to_rational_dms lat D1). cbn [rbind].
    rewrite (proj2 (set_gps_value _ _ exif _)) by eauto. cbn [rbind].
    rewrite set_gps_insert. cbn [rbind].
    rewrite (latlon_to_rational_dms lon D2). cbn [rbind].
    rewrite set_gps_insert. cbn [rbind].
    rewrite set_gps_insert. cbn [rbind].
    rewrite (ele_to_rational_altitude ele D3). cbn [rbind].
    rewrite set_gps_insert. reflexivity.
Qed.

Lemma geotag_other (lat lon ele : F) (ifd : gmap Z ExifValue) (tag : Z) :
  tag <> GPSIFD.GPSLatitude -> tag <> GPSIFD.GPSLatitudeRef ->
  tag <> GPSIFD.GPSLongitude -> tag <> GPSIFD.GPSLongitudeRef ->
  tag <> GPSIFD.GPSAltitude ->
  geotag lat lon ele ifd !! tag = ifd !! tag.
Proof.
  intros. unfold geotag. rewrite !lookup_insert_ne by congruence. reflexivity.
Qed.

Lemma geotag_idempotent (lat lon ele : F) (ifd : gmap Z ExifValue) :
  geotag lat lon ele (geotag lat lon ele ifd) = geotag lat lon ele ifd.
Proof.
  apply map_eq. intros tag. unfold geotag.
  unfold GPSIFD.GPSAltitude, GPSIFD.GPSLongitudeRef, GPSIFD.GPSLongitude,
    GPSIFD.GPSLatitudeRef, GPSIFD.GPSLatitude.
  destruct (decide (tag = 6)) as [->|N6];
    [|destruct (decide (tag = 3)) as [->|N3];
      [|destruct (decide (tag = 4)) as [->|N4];
        [|destruct (decide (tag = 1)) as [->|N1];
          [|destruct (decide (tag = 2)) as [->|N2]]]]];
    repeat first [ rewrite lookup_insert_eq
                 | rewrite lookup_insert_ne by lia ];
    reflexivity.
Qed.

Lemma for_each_app {A : Type} (body : A -> M F unit) (l1 l2 : list A)
    (w : World F) :
  for_each body (l1 ++ l2) w =
  match for_each body l1 w with
  | (Ok _, w1) => for_each body l2 w1
  | (Raise e, w1) => (Raise e, w1)
  end.
Proof.
  revert w. induction l1 as [|a l1 IH]; intros w; [reflexivity|].
  cbn [app for_each]. unfold bind.
  destruct (body a w) as [[[]|e] w1]; [apply IH | reflexivity].
Qed.

End TaggingFacts.

(** X5.  When the tagging of one image does not raise, it has changed nothing
    but the five geotag fields: every other block of the dictionary and
    every other tag of the GPS block are as [piexif.load] gave them.  A
    dictionary without a GPS block raises [KeyError] once the latitude has
    been encoded. *)
Theorem tagging_touches_only_geotags (F : Type) (N : PyFloat F)
    (lat lon ele : F) (exif : ExifDict) :
  (forall exif',
      tag_exif lat lon ele exif = Ok exif' ->
      (forall k : string, k <> "GPS" -> exif' !! k = exif !! k) /\
      exists ifd ifd' : gmap Z ExifValue,
        exif !! "GPS" = Some ifd /\ exif' !! "GPS" = Some ifd' /\
        forall tag : Z,
          tag <> GPSIFD.GPSLatitude -> tag <> GPSIFD.GPSLatitudeRef ->
          tag <> GPSIFD.GPSLongitude -> tag <> GPSIFD.GPSLongitudeRef ->
          tag <> GPSIFD.GPSAltitude ->
          ifd' !! tag = ifd !! tag) /\
  (exif !! "GPS" = None -> dms_defined lat ->
   tag_exif lat lon ele exif = Raise (KeyError "GPS")).
Proof.
  split.
  - intros exif' E. apply tag_exif_value in E as (_ & _ & _ & ifd & G & ->).
    split.
    + intros k Hk. apply lookup_insert_ne. congruence.
    + exists ifd, (geotag lat lon ele ifd).
      split; [exact G|]. split; [apply lookup_insert_eq|].
      intros tag. apply geotag_other.
  - intros G D. unfold tag_exif. rewrite (latlon_to_rational_dms lat D).
    cbn [rbind].
    assert (S : forall tag v, set_gps tag v exif = Raise (KeyError "GPS"))
      by (intros tag v; unfold set_gps; rewrite G; reflexivity).
    rewrite S. reflexivity.
Qed.

Lemma tagging_touches_only_geotags_witness :
  exists exif',
    tag_exif (m_lat Footage.good_row) (m_lon Footage.good_row)
             (m_ele Footage.good_row) Footage.camera_exif = Ok exif' /\
    exif' !! "0th" = Footage.camera_exif !! "0th" /\
    gps_field exif' 7 (ExifRationals [(12, 1); (0, 1); (0, 1)]).
Proof.
  destruct (tag_exif (m_lat Footage.good_row) (m_lon Footage.good_row)
                     (m_ele Footage.good_row) Footage.camera_exif)
    as [exif'|e] eqn:E; [|vm_compute in E; discriminate E].
  exists exif'. split; [reflexivity|].
  destruct (proj1 (tagging_touches_only_geotags B64.float B64.b64_float
                     _ _ _ _) exif' E) as (K & ifd & ifd' & G & G' & T).
  split; [apply K; discriminate|].
  exists ifd'. split; [exact G'|].
  rewrite T by (unfold GPSIFD.GPSLatitude, GPSIFD.GPSLatitudeRef,
                  GPSIFD.GPSLongitude, GPSIFD.GPSLongitudeRef,
                  GPSIFD.GPSAltitude; lia).
  vm_compute in G. injection G as <-. vm_compute. reflexivity.
Defined.

(** X6.  Tagging is idempotent: running the five assignments again, with the
    same coordinates, on the dictionary they produced gives that dictionary
    back. *)
Theorem tagging_is_idempotent (F : Type) (N : PyFloat F)
    (lat lon ele : F) (exif exif' : ExifDict) :
  tag_exif lat lon ele exif = Ok exif' ->
  tag_exif lat lon ele exif' = Ok exif'.
Proof.
  intros E. apply tag_exif_value in E as (D1 & D2 & D3 & ifd & G & ->).
  apply tag_exif_value. split; [exact D1|]. split; [exact D2|].
  split; [exact D3|]. exists (geotag lat lon ele ifd).
  split; [apply lookup_insert_eq|].
  rewrite geotag_idempotent, insert_insert_eq. reflexivity.
Qed.

Lemma tagging_is_idempotent_witness :
  match tag_exif (m_lat Footage.good_row) (m_lon Footage.good_row)
                 (m_ele Footage.good_row) Footage.camera_exif with
  | Ok exif' =>
      tag_exif (m_lat Footage.good_row) (m_lon Footage.good_row)
               (m_ele Footage.good_row) exif' = Ok exif'
  | Raise _ => False
  end.
Proof.
  destruct (tag_exif (m_lat Footage.good_row) (m_lon Footage.good_row)
                     (m_ele Footage.good_row) Footage.camera_exif)
    as [exif'|e] eqn:E; [|vm_compute in E; discriminate E].
  apply (tagging_is_idempotent B64.float B64.b64_float _ _ _ _ _ E).
Defined.

(** X7.  The extraction loop stops at the first record that raises: the
    records before it are extracted and tagged, the failing record is
    extracted (when the frame rate is not zero) but nothing is written for
    it, and no later record is touched. *)
Theorem extraction_stops_at_first_failure (F : Type) (N : PyFloat F)
    (piexif : Piexif) (done rest : list (MergedRow F)) (r : MergedRow F)
    (w w1 : World F) (e : Error) :
  for_each (extract_image piexif) done w = (Ok tt, w1) ->
  fst (extract_image piexif r w1) = Raise e ->
  let out := for_each (extract_image piexif) (done ++ r :: rest) w in
  fst out = Raise e /\
  self (snd out) = self w /\
  length (writes (events (snd out))) =
    (length (writes (events w)) + length done)%nat /\
  seeks (events (snd out)) =
    seeks (events w) ++
    map (fun x => (f_div (f_of_int (m_frame_num x)) (fps (self w)),
                   m_frame_num x))
        (if f_is_zero (fps (self w)) then done else done ++ [r]).
Proof.
  intros D R out. subst out. rewrite for_each_app, D.
  cbn [for_each]. unfold bind.
  pose proof (for_each_extract_ok piexif done w w1 D)
    as (Es & Ek & blocks & Ew & Hb).
  rewrite extract_image_run in R |- *. rewrite Es in *.
  destruct (f_is_zero (fps (self w))).
  - cbn [fst snd] in *. injection R as <-.
    split; [reflexivity|]. split; [exact Es|]. split; [|exact Ek].
    rewrite Ew, length_app. f_equal.
    symmetry. apply (Forall2_length _ _ _ Hb).
  - destruct (do exif <- tag_exif (m_lat r) (m_lon r) (m_ele r)
                                  (piexif_load piexif (m_frame_num r));
              piexif_dump piexif exif) as [data|e']; [discriminate R|].
    cbn [fst snd self events] in *. injection R as <-.
    split; [reflexivity|]. split; [reflexivity|]. split.
    + rewrite writes_app. cbn [writes]. rewrite app_nil_r.
      rewrite Ew, length_app. f_equal.
      symmetry. apply (Forall2_length _ _ _ Hb).
    + rewrite seeks_app, Ek, map_app, <- app_assoc. reflexivity.
Qed.

Lemma extraction_stops_at_first_failure_witness :
  fst (for_each (extract_image Sample.fresh_exif)
                ([Footage.good_row] ++ Footage.nan_row :: [Footage.good_row])
                Sample.world)
  = Raise (ValueError "cannot convert float NaN to integer").
Proof.
  apply (extraction_stops_at_first_failure B64.float B64.b64_float
           Sample.fresh_exif [Footage.good_row] [Footage.good_row]
           Footage.nan_row Sample.world
           (snd (for_each (extract_image Sample.fresh_exif)
                          [Footage.good_row] Sample.world)));
    vm_compute; reflexivity.
Defined.

(** X8.  A merge step that ends normally has built the three interpolants
    from the track (elapsed seconds against latitude, longitude, elevation),
    keeps them in the object, leaves the frame list as it was, and stores one
    merged record per frame, in order: the frame's number and time stamp,
    and each interpolant evaluated at that time stamp in seconds. *)
Theorem merge_is_one_to_one (F : Type) (N : PyFloat F)
    (interp1d : list F -> list F -> result (F -> F)) (w w' : World F) :
  _merge_gnss2frame_list interp1d w = (Ok tt, w') ->
  let gps := gps_data (self w) in
  exists frames rows lat lon ele,
    interp1d (track_seconds gps) (map gps_lat gps) = Ok lat /\
    interp1d (track_seconds gps) (map gps_lon gps) = Ok lon /\
    interp1d (track_seconds gps) (map gps_ele gps) = Ok ele /\
    lat_interp (self w') = Some lat /\
    lon_interp (self w') = Some lon /\
    ele_interp (self w') = Some ele /\
    frame_list (self w) = Some frames /\
    frame_list (self w') = Some frames /\
    merged_frame_list (self w') = Some rows /\
    Forall2 (fun f m =>
               m_frame_num m = frame_num f /\
               m_time_stamp m = time_stamp f /\
               m_lat m = lat (total_seconds (time_stamp f)) /\
               m_lon m = lon (total_seconds (time_stamp f)) /\
               m_ele m = ele (total_seconds (time_stamp f)))
            frames rows.
Proof.
  intros E gps. rewrite _merge_gnss2frame_list_run in E. cbn zeta in E.
  fold gps in E.
  destruct (iloc_last gps) as [last|]; [|discriminate].
  destruct (interp1d _ (map gps_lat _)) as [lat|]; [|discriminate].
  destruct (interp1d _ (map gps_lon _)) as [lon|]; [|discriminate].
  destruct (interp1d _ (map gps_ele _)) as [ele|]; [|discriminate].
  cbn [frame_list set_ele_interp set_lon_interp set_lat_interp] in E.
  destruct (frame_list (self w)) as [frames|] eqn:Fl; [|discriminate].
  injection E as <-.
  exists frames, (map (merged_row lat lon ele) frames), lat, lon, ele.
  cbn [self lat_interp lon_interp ele_interp frame_list merged_frame_list
         set_merged_frame_list set_ele_interp set_lon_interp set_lat_interp].
  repeat (split; [first [reflexivity | assumption]|]).
  clear Fl. induction frames as [|f frames IH]; cbn [map]; constructor.
  - cbn. repeat split; reflexivity.
  - exact IH.
Qed.

Lemma merge_is_one_to_one_witness :
  exists rows,
    merged_frame_list
      (self (snd (_merge_gnss2frame_list Sample.flat_interp1d
                    {| self := Sample.long_video; events := [] |})))
    = Some rows /\ length rows = 2%nat.
Proof.
  assert (E : _merge_gnss2frame_list Sample.flat_interp1d
                {| self := Sample.long_video; events := [] |}
              = (Ok tt,
                 snd (_merge_gnss2frame_list Sample.flat_interp1d
                        {| self := Sample.long_video; events := [] |})))
    by (vm_compute; reflexivity).
  destruct (merge_is_one_to_one B64.float B64.b64_float _ _ _ E)
    as (frames & rows & lat & lon & ele & _ & _ & _ & _ & _ & _ & Ef & _ &
        Em & Hr).
  exists rows. split; [exact Em|].
  rewrite <- (Forall2_length _ _ _ Hr).
  vm_compute in Ef. injection Ef as <-. reflexivity.
Defined.

(** ** Further properties in exact arithmetic *)

Lemma trunc_ceiling (q : Q) : (q <= 0)%Q -> Exact.trunc q = Qceiling q.
Proof.
  destruct q as [n d]. unfold Qle, Exact.trunc, Qceiling, Qfloor, Qopp.
  cbn. intros Hn.
  rewrite <- (Z.opp_involutive n) at 1.
  rewrite Z.quot_opp_l by lia. rewrite Z.quot_div_nonneg by lia.
  reflexivity.
Qed.

Lemma floor_bounds (x : Q) :
  (inject_Z (Qfloor x) <= x)%Q /\ (x < inject_Z (Qfloor x) + 1)%Q.
Proof.
  split; [apply Qfloor_le|].
  pose proof (Qlt_floor x) as L. rewrite inject_Z_plus in L. exact L.
Qed.

Lemma ceiling_bounds (x : Q) :
  (inject_Z (Qceiling x) - 1 < x)%Q /\ (x <= inject_Z (Qceiling x))%Q.
Proof.
  split; [|apply Qle_ceiling].
  pose proof (Qceiling_lt x) as L.
  unfold Z.sub in L. rewrite inject_Z_plus in L. exact L.
Qed.

Lemma floor_range (x : Q) (lo hi : Z) :
  (inject_Z lo <= x)%Q -> (x < inject_Z hi)%Q -> lo <= Qfloor x < hi.
Proof.
  intros L U. destruct (floor_bounds x) as [A B]. split.
  - rewrite <- (Qfloor_Z lo). apply Qfloor_resp_le, L.
  - rewrite Zlt_Qlt. lra.
Qed.

Lemma py_truediv_exact (x y z : Q) :
  py_truediv x y = Ok z -> ~ (y == 0)%Q /\ z = (x / y)%Q.
Proof.
  unfold py_truediv. cbn [f_is_zero f_div Exact.exact_float].
  unfold Exact.is_zero. destruct (Z.eqb_spec (Qnum y) 0) as [E|E];
    [discriminate|].
  intros [= <-]. split; [|reflexivity].
  unfold Qeq. cbn. lia.
Qed.

Lemma frame_of_int (frames k : Z) (x : Q) :
  1 <= frames <= 2 ^ 63 -> 0 <= k -> (x == inject_Z k)%Q ->
  frame_of frames x = Z.min k (frames - 1).
Proof.
  intros Hf Hk E.
  assert (S : frame_of frames x = frame_of frames (inject_Z k)).
  { apply Z.le_antisymm; apply (frame_of_monotone frames _ _ Hf);
      rewrite E; apply Qle_refl. }
  rewrite S. destruct (frame_of_floor frames (inject_Z k) Hf) as [-> _].
  unfold np_clip, is_nan. cbn [f_class f_ltb Exact.exact_float].
  assert (B : (0 <= inject_Z k)%Q) by (rewrite <- (Zle_Qle 0); exact Hk).
  destruct (Exact.ltb 0 (inject_Z k)) eqn:L0.
  - destruct (Exact.ltb (inject_Z k) (inject_Z (frames - 1))) eqn:L1.
    + apply ltb_spec in L1. rewrite <- Zlt_Qlt in L1.
      rewrite Qfloor_Z. lia.
    + apply ltb_false in L1. rewrite <- Zle_Qle in L1.
      rewrite Qfloor_Z. lia.
  - apply ltb_false in L0.
    assert (k <= 0) by (rewrite Zle_Qle; exact L0).
    assert (k = 0) by lia. subst k.
    destruct (Exact.ltb 0 (inject_Z (frames - 1))) eqn:L1.
    + change (Qfloor 0) with 0. lia.
    + apply ltb_false in L1.
      assert (frames - 1 <= 0) by (rewrite Zle_Qle; exact L1).
      rewrite Qfloor_Z. lia.
Qed.





Lemma leb_false_exact (x y : Q) : (y < x)%Q -> f_leb x y = false.
Proof.
  intros L. cbn [f_leb Exact.exact_float].
  destruct (Qle_bool x y) eqn:E; [|reflexivity].
  apply Qle_bool_iff in E. lra.
Qed.

Lemma gt_false_exact (x y : Q) : (x <= y)%Q -> py_gt x y = false.
Proof.
  intros L. unfold py_gt. cbn [f_ltb Exact.exact_float].
  apply ltb_false. exact L.
Qed.

Lemma gt_true_exact (x y : Q) : (y < x)%Q -> py_gt x y = true.
Proof.
  intros L. unfold py_gt. cbn [f_ltb Exact.exact_float].
  apply ltb_spec. exact L.
Qed.

Lemma truediv_exact (x y : Q) :
  ~ (y == 0)%Q -> py_truediv x y = Ok (x / y)%Q.
Proof.
  intros Ny. unfold py_truediv. cbn [f_is_zero f_div Exact.exact_float].
  rewrite (is_zero_false y Ny). reflexivity.
Qed.









(** ** Further properties on binary64 *)

(** X16.  On binary64, a coordinate and its opposite encode to the same
    three rationals, so that only the reference letter tells the hemispheres
    apart: it is [S] (or [W]) exactly for the finite data with the sign bit
    set that are not zero; both zeros, the negative one included, are [N]
    (or [E]). *)
Theorem opposite_coordinates_share_rationals :
  (forall v : B64.float,
      latlon_to_rational (SFopp v) = latlon_to_rational v) /\
  (forall (s : bool) (m : positive) (e : Z),
      lat_hemisphere (S754_finite s m e : B64.float)
        = (if s then "S" else "N") /\
      lon_hemisphere (S754_finite s m e : B64.float)
        = (if s then "W" else "E")) /\
  (forall s : bool,
      lat_hemisphere (S754_zero s : B64.float) = "N" /\
      lon_hemisphere (S754_zero s : B64.float) = "E").
Proof.
  split; [|split].
  - intros v. unfold latlon_to_rational.
    change (f_abs (SFopp v)) with (SFabs (SFopp v)).
    change (f_abs v) with (SFabs v).
    assert (E : SFabs (SFopp v) = SFabs v) by (destruct v; reflexivity).
    rewrite E. reflexivity.
  - intros [] m e; split; reflexivity.
  - intros []; split; reflexivity.
Qed.

(** X17.  The synchronization warning is printed exactly when the test of
    the merge step fires, whatever happens afterwards: the lines the step
    prints are the two lines of the warning, or none.  On binary64 the test
    is strict: a video one second longer than the track prints nothing. *)
Theorem warning_exactly_on_mismatch (F : Type) (N : PyFloat F)
    (interp1d : list F -> list F -> result (F -> F)) (w : World F)
    (last : GpsRow F) :
  iloc_last (gps_data (self w)) = Ok last ->
  events (snd (_merge_gnss2frame_list interp1d w)) =
    events w ++
    (if py_gt (f_abs (f_sub (total_duration (self w))
                            (total_seconds (rel_time last))))
              (f_of_int 1)
     then sync_warning else []).
Proof.
  intros L. rewrite _merge_gnss2frame_list_run. cbn zeta. rewrite L.
  unfold mismatch.
  destruct (interp1d _ (map gps_lat _)); [|reflexivity].
  destruct (interp1d _ (map gps_lon _)); [|reflexivity].
  destruct (interp1d _ (map gps_ele _)); [|reflexivity].
  destruct (frame_list _); reflexivity.
Qed.

Lemma warning_exactly_on_mismatch_witness :
  events (snd (_merge_gnss2frame_list Sample.flat_interp1d
                 {| self := with_duration (B64.of_int 11) Sample.long_video;
                    events := [] |}))
  = [].
Proof.
  rewrite (warning_exactly_on_mismatch B64.float B64.b64_float
             Sample.flat_interp1d
             {| self := with_duration (B64.of_int 11) Sample.long_video;
                events := [] |}
             (Sample.gps_fix 10 (B64.decimal 356897 4)
                             (B64.decimal 1396919 4) (B64.decimal 42 0))
             eq_refl).
  vm_compute. reflexivity.
Defined.
